(** * Validation and scoring drivers of the evaluation template

    A shallow embedding of [utils.py], [validate.py] and [score.py].

    The three scripts are glue around libraries (glob, pandas, cnb_tools,
    scikit-learn, json) and the file system.  The embedding keeps the
    control flow of the scripts and takes the libraries and the file
    system as an interface:

    - [world] holds what a run can observe of the file system: the
      listing of a folder, and for a path whether it opens, what text it
      holds and which table pandas loads from it;
    - [Libs] holds the pure library functions the scripts call;
    - a computation of type [M A] is the list of external calls it made,
      in order, together with its outcome: a value or a raised exception.
      A run that ends in [Ok tt] is a process that exits with status 0,
      a run that ends in [Raise e] is a process aborted by the uncaught
      exception [e].

    Opening a file, loading a table, decoding JSON and computing a metric
    may raise; [glob], [print], [json.dumps] and the checks of the
    validation toolkit return normally.

    Python [str] is modelled by [string]; [len] and slicing count its
    characters. *)

From Stdlib Require Import String Ascii List ZArith Lia Bool PeanoNat.
From Stdlib Require Import DecimalString.
From Stdlib Require Import PrimFloat SpecFloat FloatOps FloatAxioms.
Import ListNotations.
Open Scope string_scope.
Open Scope list_scope.

Set Warnings "-register-all".

(** ** Exceptions *)

(** The exception classes that the scripts raise, catch or let through. *)
Inductive exn_class : Type :=
| Exception
| ValueError
| JSONDecodeError
| OSError
| FileNotFoundError
| AttributeError.

(** [issubclass c d]: Python's class hierarchy on these classes.
    [json.decoder.JSONDecodeError] derives from [ValueError] and
    [FileNotFoundError] from [OSError]. *)
Definition issubclass (c d : exn_class) : bool :=
  match d, c with
  | Exception, _ => true
  | ValueError, (ValueError | JSONDecodeError) => true
  | JSONDecodeError, JSONDecodeError => true
  | OSError, (OSError | FileNotFoundError) => true
  | FileNotFoundError, FileNotFoundError => true
  | AttributeError, AttributeError => true
  | _, _ => false
  end.

(** A raised exception: its class and [str(err)]. *)
Record exn : Type := mkExn { exn_cls : exn_class; exn_str : string }.

Definition isinstance (e : exn) (classes : list exn_class) : bool :=
  existsb (issubclass (exn_cls e)) classes.

Inductive outcome (A : Type) : Type :=
| Ok (a : A)
| Raise (e : exn).
Arguments Ok {A} a.
Arguments Raise {A} e.

(** ** Python values *)

(** What [json.load] returns and [json.dumps] accepts.  A [dict] keeps
    its keys in insertion order. *)
Inductive pyval : Type :=
| PyNone
| PyBool (b : bool)
| PyInt (z : Z)
| PyFloat (f : float)
| PyStr (s : string)
| PyList (l : list pyval)
| PyDict (d : list (string * pyval)).

Definition dict : Type := list (string * pyval).

(** [d.get(k)], as an option. *)
Fixpoint dict_get (k : string) (d : dict) : option pyval :=
  match d with
  | [] => None
  | (k', v) :: d' => if String.eqb k k' then Some v else dict_get k d'
  end.

(** [d[k] = v]: an existing key keeps its place, a new key goes last. *)
Fixpoint dict_set (k : string) (v : pyval) (d : dict) : dict :=
  match d with
  | [] => [(k, v)]
  | (k', v') :: d' =>
      if String.eqb k k' then (k', v) :: d' else (k', v') :: dict_set k v d'
  end.

(** [d |= other], also [{**d, **other}]. *)
Definition dict_update (d other : dict) : dict :=
  fold_left (fun acc kv => dict_set (fst kv) (snd kv) acc) other d.

Definition dict_keys (d : dict) : list string := map fst d.

(** Truth value of a Python object, as [not x] and [if x] use it. *)
Definition truthy (v : pyval) : bool :=
  match v with
  | PyNone => false
  | PyBool b => b
  | PyInt z => negb (Z.eqb z 0)
  | PyFloat f => negb (PrimFloat.eqb f 0%float)
  | PyStr s => negb (String.eqb s "")
  | PyList l => match l with [] => false | _ => true end
  | PyDict d => match d with [] => false | _ => true end
  end.

(** [v == s] for a string literal [s]. *)
Definition py_eq_str (v : pyval) (s : string) : bool :=
  match v with
  | PyStr s' => String.eqb s' s
  | _ => false
  end.

Definition type_name (v : pyval) : string :=
  match v with
  | PyNone => "NoneType"
  | PyBool _ => "bool"
  | PyInt _ => "int"
  | PyFloat _ => "float"
  | PyStr _ => "str"
  | PyList _ => "list"
  | PyDict _ => "dict"
  end.

(** ** External calls *)

Inductive open_mode : Type := ModeR | ModeW.

(** The validation-toolkit checks and the metric functions, as call sites. *)
Inductive vtk_fn : Type :=
| CheckDuplicateKeys
| CheckMissingKeys
| CheckUnknownKeys
| CheckNanValues
| CheckValuesRange.

Inductive sklearn_fn : Type :=
| RocAucScore
| PrecisionRecallCurve
| Auc.

Inductive table : Type := PredictionTable | GoldstandardTable.

Inductive event : Type :=
| EvGlob (folder : string)
| EvOpen (path : string) (mode : open_mode)
| EvJsonDumps (v : pyval)
| EvWrite (path : string) (text : string)
| EvReadCsv (path : string) (cols : table)
| EvVtk (f : vtk_fn)
| EvSklearn (f : sklearn_fn)
| EvPrint (line : string).

(** ** The monad of the scripts: a trace of calls and an outcome *)

Definition M (A : Type) : Type := (list event * outcome A)%type.

Definition ret {A} (a : A) : M A := ([], Ok a).

Definition raise {A} (e : exn) : M A := ([], Raise e).

Definition bind {A B} (m : M A) (k : A -> M B) : M B :=
  match m with
  | (t, Ok a) => let (t', r) := k a in (t ++ t', r)
  | (t, Raise e) => (t, Raise e)
  end.

Definition emit (ev : event) : M unit := ([ev], Ok tt).

(** A pure library call: it returns or raises, and leaves no event. *)
Definition lift {A} (r : outcome A) : M A := ([], r).

(** An external call: it is recorded, then it returns or raises. *)
Definition call {A} (ev : event) (r : outcome A) : M A := ([ev], r).

(** [try: body / except classes as err: handler err / else: orelse x]. *)
Definition try_except_else {A B} (body : M A) (classes : list exn_class)
    (handler : exn -> M B) (orelse : A -> M B) : M B :=
  match body with
  | (t, Ok a) => let (t', r) := orelse a in (t ++ t', r)
  | (t, Raise e) =>
      if isinstance e classes
      then let (t', r) := handler e in (t ++ t', r)
      else (t, Raise e)
  end.

Definition try_except {A} (body : M A) (classes : list exn_class)
    (handler : exn -> M A) : M A :=
  try_except_else body classes handler ret.

Definition trace {A} (m : M A) : list event := fst m.
Definition result {A} (m : M A) : outcome A := snd m.

Declare Scope py_scope.
Delimit Scope py_scope with py.
Notation "x <- c1 ;; c2" := (bind c1 (fun x => c2))
  (at level 100, c1 at next level, right associativity) : py_scope.
Notation "' pat <- c1 ;; c2" := (bind c1 (fun x => match x with pat => c2 end))
  (at level 100, pat pattern, c1 at next level, right associativity) : py_scope.
Notation "c1 ;; c2" := (bind c1 (fun _ => c2))
  (at level 100, right associativity) : py_scope.
Open Scope py_scope.

Definition print (line : string) : M unit := emit (EvPrint line).

(** [d.get(k)] on a [dict]: a missing key gives [None]. *)
Definition get_or_none (k : string) (d : dict) : pyval :=
  match dict_get k d with
  | Some v => v
  | None => PyNone
  end.

(** [res.get(k)]: only a [dict] has the method. *)
Definition py_get (res : pyval) (k : string) : M pyval :=
  match res with
  | PyDict d => ret (get_or_none k d)
  | _ => raise (mkExn AttributeError
                  ("'" ++ type_name res ++ "' object has no attribute 'get'")%string)
  end.

(** ** Strings *)

Definition newline : string := String (ascii_of_nat 10) EmptyString.

(** [sep.join(l)]. *)
Definition join (sep : string) (l : list string) : string :=
  String.concat sep l.

(** [s[:n]]. *)
Definition slice_to (n : nat) (s : string) : string := String.substring 0 n s.

(** [needle in s]. *)
Fixpoint str_contains (needle s : string) : bool :=
  if String.prefix needle s then true
  else match s with
       | EmptyString => false
       | String _ s' => str_contains needle s'
       end.

(** [str(n)] for a non-negative integer. *)
Definition str_of_nat (n : nat) : string :=
  NilEmpty.string_of_uint (Nat.to_uint n).

(** [filter(None, l)] on strings: the non-empty ones. *)
Definition filter_none (l : list string) : list string :=
  filter (fun s => negb (String.eqb s "")) l.

(** ** Tables *)

(** A row of the predictions table, columns [id: str] and
    [probability: float]; a null cell of a float column is NaN. *)
Record pred_row : Type := mkPred { pred_id : string; probability : float }.

(** A row of the goldstandard table, columns [id: str] and [disease: int]. *)
Record gold_row : Type := mkGold { gold_id : string; disease : Z }.

(** A row of the joined table. *)
Record merged_row : Type :=
  mkMerged { merged_id : string;
             merged_disease : Z;
             merged_probability : float }.

(** ** The interface to the libraries and to the file system *)

(** The pure library functions the scripts call. *)
Class Libs : Type := mkLibs {
  (* json *)
  json_loads : string -> outcome pyval;
  json_dumps : pyval -> string;
  (* cnb_tools.validation_toolkit: each check returns its message, or
     the empty string *)
  check_duplicate_keys : list string -> string;
  check_missing_keys : list string -> list string -> string;
  check_unknown_keys : list string -> list string -> string;
  check_nan_values : list float -> string;
  check_values_range : list float -> float -> float -> string;
  (* pandas: gold.merge(pred, how="left", on="id") *)
  merge_left_on_id : list gold_row -> list pred_row -> list merged_row;
  (* sklearn.metrics *)
  roc_auc_score : list Z -> list float -> outcome float;
  precision_recall_curve :
    list Z -> list float -> outcome (list float * list float * list float);
  auc : list float -> list float -> outcome float
}.

(** What a run observes of the file system. *)
Record world : Type := mkWorld {
  (* glob(os.path.join(folder, "*")) *)
  glob : string -> list string;
  (* open(path, encoding="utf-8") and reading the whole text *)
  open_r : string -> outcome string;
  (* open(path, "w", encoding="utf-8") *)
  open_w : string -> outcome unit;
  (* pd.read_csv(path, usecols=PREDICTION_COLS, dtype=PREDICTION_COLS,
                 float_precision="round_trip") *)
  read_csv_pred : string -> outcome (list pred_row);
  (* pd.read_csv(path, usecols=GOLDSTANDARD_COLS, dtype=GOLDSTANDARD_COLS) *)
  read_csv_gold : string -> outcome (list gold_row)
}.

(** [with open(path, "w", encoding="utf-8") as out:
        out.write(json.dumps(res))]. *)
Definition write_json {L : Libs} (w : world) (path : string) (res : pyval)
    : M unit :=
  call (EvOpen path ModeW) (open_w w path) ;;
  text <- call (EvJsonDumps res) (Ok (json_dumps res)) ;;
  emit (EvWrite path text).

(** [with open(path, encoding="utf-8") as f: f.read()]. *)
Definition read_file (w : world) (path : string) : M string :=
  call (EvOpen path ModeR) (open_r w path).

(** ** utils.py *)

Module utils.
Section WithWorld.
Variable w : world.

Definition extract_gs_file (folder : string) : M string :=
  files <- call (EvGlob folder) (Ok (glob w folder)) ;;
  if negb (Nat.eqb (List.length files) 1)
  then raise (mkExn ValueError
                ("Expected exactly one goldstandard file in folder. "
                 ++ "Got " ++ str_of_nat (List.length files)
                 ++ ". Exiting.")%string)
  else ret (nth 0 files "").

End WithWorld.
End utils.

(** ** validate.py *)

Module validate.

(** [str(PREDICTION_COLS)]. *)
Definition PREDICTION_COLS_str : string :=
  "{'id': <class 'str'>, 'probability': <class 'float'>}".

Section WithWorld.
Context {L : Libs}.
Variable w : world.

Definition vtk (f : vtk_fn) (message : string) : M string :=
  call (EvVtk f) (Ok message).

Definition validate (gold_file pred_file : string) : M (list string) :=
  let errors : list string := [] in
  gold <- call (EvReadCsv gold_file GoldstandardTable)
               (read_csv_gold w gold_file) ;;
  errors <-
    try_except_else
      (call (EvReadCsv pred_file PredictionTable) (read_csv_pred w pred_file))
      [ValueError]
      (fun err =>
         ret (errors ++
              [("Invalid column names and/or types: " ++ exn_str err ++ ". "
                ++ "Expecting: " ++ PREDICTION_COLS_str ++ ".")%string]))
      (fun pred =>
         e <- vtk CheckDuplicateKeys
                (check_duplicate_keys (map pred_id pred)) ;;
         let errors := errors ++ [e] in
         e <- vtk CheckMissingKeys
                (check_missing_keys (map gold_id gold) (map pred_id pred)) ;;
         let errors := errors ++ [e] in
         e <- vtk CheckUnknownKeys
                (check_unknown_keys (map gold_id gold) (map pred_id pred)) ;;
         let errors := errors ++ [e] in
         e <- vtk CheckNanValues
                (check_nan_values (map probability pred)) ;;
         let errors := errors ++ [e] in
         e <- vtk CheckValuesRange
                (check_values_range (map probability pred) 0%float 1%float) ;;
         let errors := errors ++ [e] in
         ret errors) ;;
  (* Remove any empty strings from the list before return. *)
  ret (filter_none errors).

(** The status and the truncation of [main], on the joined text. *)
Definition status_of (invalid_reasons : string) : string :=
  if truthy (PyStr invalid_reasons) then "INVALID" else "VALIDATED".

Definition truncate (invalid_reasons : string) : string :=
  if Nat.ltb 500 (String.length invalid_reasons)
  then (slice_to 496 invalid_reasons ++ "...")%string
  else invalid_reasons.

Definition main (predictions_file goldstandard_folder output_file : string)
    : M unit :=
  errors <-
    (if str_contains "INVALID" predictions_file
     then
       text <- read_file w predictions_file ;;
       ret [text]
     else
       gold_file <- utils.extract_gs_file w goldstandard_folder ;;
       validate gold_file predictions_file) ;;
  let invalid_reasons := join newline errors in
  let status := status_of invalid_reasons in
  (* Truncate validation errors if >500 *)
  let invalid_reasons := truncate invalid_reasons in
  let res : dict :=
    [("validation_status", PyStr status);
     ("validation_errors", PyStr invalid_reasons)] in
  write_json w output_file (PyDict res) ;;
  print status.

End WithWorld.
End validate.

(** ** score.py *)

Module score.
Section WithWorld.
Context {L : Libs}.
Variable w : world.

Definition sklearn {A} (f : sklearn_fn) (r : outcome A) : M A :=
  call (EvSklearn f) r.

Definition score (gold_file pred_file : string) : M dict :=
  pred <- call (EvReadCsv pred_file PredictionTable)
               (read_csv_pred w pred_file) ;;
  gold <- call (EvReadCsv gold_file GoldstandardTable)
               (read_csv_gold w gold_file) ;;
  (* Join the two dataframes to ensure the order of the IDs are the same
     between goldstandard and prediction before scoring. *)
  let merged := merge_left_on_id gold pred in
  roc <- sklearn RocAucScore
           (roc_auc_score (map merged_disease merged)
                          (map merged_probability merged)) ;;
  '(precision, recall, _) <-
     sklearn PrecisionRecallCurve
       (precision_recall_curve (map merged_disease merged)
                               (map merged_probability merged)) ;;
  area <- sklearn Auc (auc recall precision) ;;
  ret [("auc_roc", PyFloat roc); ("auprc", PyFloat area)].

Definition blank_record : dict :=
  [("validation_status", PyStr ""); ("validation_errors", PyStr "")].

(** [with open(output_file) as out: res = json.load(out)], with the
    fallback of the [except] clause. *)
Definition load_results (output_file : string) : M pyval :=
  try_except
    (text <- read_file w output_file ;;
     lift (json_loads text))
    [FileNotFoundError; JSONDecodeError]
    (fun _ => ret (PyDict blank_record)).

(** [res |= other]: raises on a value that is no [dict] (not reached in
    [main], where [res.get] has raised before). *)
Definition py_ior (res : pyval) (other : dict) : M dict :=
  match res with
  | PyDict d => ret (dict_update d other)
  | _ => raise (mkExn Exception
                  ("unsupported operand type(s) for |=: '" ++ type_name res
                   ++ "' and 'dict'")%string)
  end.

Definition main (predictions_file goldstandard_folder output_file : string)
    : M unit :=
  let scores : dict := [] in
  let status := "INVALID" in
  res <- load_results output_file ;;
  (* Notify that absent validation results may lead to inaccurate scores *)
  validation_status <- py_get res "validation_status" ;;
  (if negb (truthy validation_status)
   then print ("Validation results not found. Proceeding with scoring but "
               ++ "results may be inaccurate.")%string
   else ret tt) ;;
  (* Do not attempt to score if previous validations failed. *)
  validation_status <- py_get res "validation_status" ;;
  '(scores, status, errors) <-
    (if py_eq_str validation_status "INVALID"
     then
       ret (scores, status,
            "Submission could not be evaluated due to validation errors.")
     else
       gold_file <- utils.extract_gs_file w goldstandard_folder ;;
       try_except
         (scores <- score gold_file predictions_file ;;
          ret (scores, "SCORED", ""))
         [ValueError]
         (fun err =>
            print ("Error encountered: " ++ exn_str err)%string ;;
            ret (scores, status,
                 "Error encountered during scoring; submission not evaluated."))) ;;
  res <- py_ior res
           (dict_update [("score_status", PyStr status);
                         ("score_errors", PyStr errors)] scores) ;;
  write_json w output_file (PyDict res) ;;
  print status.

End WithWorld.
End score.

(** ** The contract of the validation toolkit *)

Definition is_null (p : float) : Prop := PrimFloat.is_nan p = true.

Definition within (lo hi p : float) : Prop :=
  PrimFloat.leb lo p = true /\ PrimFloat.leb p hi = true.

Definition outside (lo hi p : float) : Prop :=
  PrimFloat.ltb p lo = true \/ PrimFloat.ltb hi p = true.

(** Modelled from the spec: [cnb_tools.validation_toolkit] is a dependency
    of [validate.py] and its code is not among the sources.  Each check
    yields the empty string when it passes and a message when it fails:
    the duplicate-key check fails if an id appears more than once in the
    predictions, the missing-key check if a goldstandard id has no
    prediction, the unknown-key check if a prediction id is absent from
    the goldstandard, the NaN check if a probability is null, the range
    check if a probability is outside the closed interval. *)
Class VtkSpec (L : Libs) : Prop := mkVtkSpec {
  duplicate_keys_spec : forall ids,
    check_duplicate_keys ids = "" <-> NoDup ids;
  missing_keys_spec : forall gold pred,
    check_missing_keys gold pred = "" <-> incl gold pred;
  unknown_keys_spec : forall gold pred,
    check_unknown_keys gold pred = "" <-> incl pred gold;
  nan_values_spec : forall ps,
    check_nan_values ps = "" <-> Forall (fun p => ~ is_null p) ps;
  values_range_pass : forall ps lo hi,
    Forall (within lo hi) ps -> check_values_range ps lo hi = "";
  values_range_fail : forall ps lo hi,
    Exists (outside lo hi) ps -> check_values_range ps lo hi <> ""
}.

(** A prediction table that conforms to a goldstandard table: the ids
    match exactly, no id is repeated, no probability is null and every
    probability lies in [0, 1]. *)
Definition conformant (gold : list gold_row) (pred : list pred_row) : Prop :=
  NoDup (map pred_id pred)
  /\ incl (map gold_id gold) (map pred_id pred)
  /\ incl (map pred_id pred) (map gold_id gold)
  /\ Forall (fun p => ~ is_null p) (map probability pred)
  /\ Forall (within 0%float 1%float) (map probability pred).

(** ** A reference instance of the libraries and example worlds *)

Module Sample.

Definition mem (x : string) (l : list string) : bool :=
  existsb (String.eqb x) l.

Fixpoint has_duplicates (ids : list string) : bool :=
  match ids with
  | [] => false
  | x :: rest => mem x rest || has_duplicates rest
  end.

(** Modelled from the spec: the five checks of the toolkit, with
    messages of our own. *)
Definition check_duplicate_keys (ids : list string) : string :=
  if has_duplicates ids then "Found duplicate id(s)." else "".

Definition check_missing_keys (gold pred : list string) : string :=
  if forallb (fun g => mem g pred) gold then "" else "Found missing id(s).".

Definition check_unknown_keys (gold pred : list string) : string :=
  if forallb (fun p => mem p gold) pred then "" else "Found unknown id(s).".

Definition check_nan_values (ps : list float) : string :=
  if existsb PrimFloat.is_nan ps
  then "'probability' column contains NaN value(s)." else "".

Definition check_values_range (ps : list float) (lo hi : float) : string :=
  if existsb (fun p => PrimFloat.ltb p lo || PrimFloat.ltb hi p) ps
  then "'probability' values are out of range." else "".

(** Left join on [id]: goldstandard order, a NaN where no prediction
    matches. *)
Definition merge_left_on_id (gold : list gold_row) (pred : list pred_row)
    : list merged_row :=
  flat_map
    (fun g =>
       match filter (fun p => String.eqb (pred_id p) (gold_id g)) pred with
       | [] => [mkMerged (gold_id g) (disease g) PrimFloat.nan]
       | ms =>
           map (fun p => mkMerged (gold_id g) (disease g) (probability p)) ms
       end)
    gold.

(** The metrics on the tables of the examples: two rows, labels 0 and 1,
    the larger probability on the positive row. *)
Definition separable (labels : list Z) (probs : list float) : bool :=
  match labels, probs with
  | [0%Z; 1%Z], [p0; p1] => PrimFloat.ltb p0 p1
  | _, _ => false
  end.

Definition roc_auc_score (labels : list Z) (probs : list float)
    : outcome float :=
  if existsb PrimFloat.is_nan probs
  then Raise (mkExn ValueError "Input contains NaN.")
  else if separable labels probs then Ok 1%float
  else Raise (mkExn ValueError "table outside the examples").

Definition precision_recall_curve (labels : list Z) (probs : list float)
    : outcome (list float * list float * list float) :=
  if separable labels probs
  then Ok ([1; 1; 1]%float, [1; 0.5; 0]%float, probs)
  else Raise (mkExn ValueError "table outside the examples").

(** The area under a precision-recall curve of constant precision 1. *)
Definition auc (x y : list float) : outcome float :=
  if Nat.ltb (List.length x) 2
  then Raise (mkExn ValueError
                "At least 2 points are needed to compute area under curve")
  else if forallb (fun p => PrimFloat.eqb p 1%float) y
          && negb (existsb PrimFloat.is_nan x)
  then Ok 1%float
  else Raise (mkExn ValueError "curve outside the examples").

(** A printer for records of strings and of the float 1.0. *)
Definition quote (s : string) : string :=
  (String (ascii_of_nat 34) s ++ String (ascii_of_nat 34) "")%string.

Definition json_dumps (v : pyval) : string :=
  match v with
  | PyDict d =>
      ("{" ++ join ", "
                (map (fun kv =>
                        quote (fst kv) ++ ": " ++
                        match snd kv with
                        | PyStr s => quote s
                        | PyFloat _ => "1.0"
                        | _ => "null"
                        end) d)
       ++ "}")%string
  | PyList [] => "[]"
  | _ => "null"
  end.

Definition invalid_record : dict :=
  [("validation_status", PyStr "INVALID");
   ("validation_errors", PyStr "Found duplicate id(s).")].

Definition validated_record : dict :=
  [("validation_status", PyStr "VALIDATED");
   ("validation_errors", PyStr "")].

(** A reader for the texts of the examples. *)
Definition json_loads (text : string) : outcome pyval :=
  if String.eqb text (json_dumps (PyDict invalid_record))
  then Ok (PyDict invalid_record)
  else if String.eqb text (json_dumps (PyDict validated_record))
  then Ok (PyDict validated_record)
  else if String.eqb text "[]" then Ok (PyList [])
  else Raise (mkExn JSONDecodeError
                "Expecting value: line 1 column 1 (char 0)").

Definition libs : Libs :=
  mkLibs json_loads json_dumps
         check_duplicate_keys check_missing_keys check_unknown_keys
         check_nan_values check_values_range
         merge_left_on_id
         roc_auc_score precision_recall_curve auc.

(** The tables of the examples. *)
Definition gold_table : list gold_row := [mkGold "a" 0; mkGold "b" 1].
Definition pred_table : list pred_row :=
  [mkPred "a" 0.25%float; mkPred "b" 0.75%float].
Definition pred_duplicated : list pred_row :=
  [mkPred "a" 0.25%float; mkPred "a" 0.5%float; mkPred "b" 0.75%float].
Definition pred_out_of_range : list pred_row :=
  [mkPred "a" 0.25%float; mkPred "b" 1.5%float].
Definition pred_null : list pred_row :=
  [mkPred "a" PrimFloat.nan; mkPred "b" 0.75%float].

(** A text of 600 characters. *)
Definition long_text : string :=
  String.concat "" (repeat "0123456789" 60).

Definition no_such_file (path : string) : exn :=
  mkExn FileNotFoundError
    ("[Errno 2] No such file or directory: '" ++ path ++ "'")%string.

Definition missing_column (name : string) : exn :=
  mkExn ValueError
    ("Usecols do not match columns, columns expected but not found: ['"
     ++ name ++ "']")%string.

(** A file system: the folder [gs] holds the goldstandard file alone,
    the folder [two] holds two files; [results.json] reads as [results]
    and the goldstandard file loads as [gold]. *)
Definition world_of (results : outcome string)
    (gold : outcome (list gold_row)) : world :=
  {| glob := fun folder =>
       if String.eqb folder "gs" then ["gs/gold.csv"]
       else if String.eqb folder "two" then ["two/a.csv"; "two/b.csv"]
       else [];
     open_r := fun path =>
       if String.eqb path "results.json" then results
       else if String.eqb path "INVALID_predictions.txt"
       then Ok "Submission archive could not be unpacked."
       else if String.eqb path "INVALID_long.txt" then Ok long_text
       else Raise (no_such_file path);
     open_w := fun _ => Ok tt;
     read_csv_pred := fun path =>
       if String.eqb path "pred.csv" then Ok pred_table
       else if String.eqb path "dup.csv" then Ok pred_duplicated
       else if String.eqb path "range.csv" then Ok pred_out_of_range
       else if String.eqb path "null.csv" then Ok pred_null
       else if String.eqb path "schema.csv"
       then Raise (missing_column "probability")
       else Raise (no_such_file path);
     read_csv_gold := fun path =>
       if String.eqb path "gs/gold.csv" then gold
       else Raise (no_such_file path) |}.

(** No results file yet, a loadable goldstandard file. *)
Definition fresh_world : world :=
  world_of (Raise (no_such_file "results.json")) (Ok gold_table).

(** After a validation that passed, and after one that failed. *)
Definition validated_world : world :=
  world_of (Ok (json_dumps (PyDict validated_record))) (Ok gold_table).

Definition invalid_world : world :=
  world_of (Ok (json_dumps (PyDict invalid_record))) (Ok gold_table).


End Sample.

(** ** Observations on a run *)

(** Calls made by [score]: loading a table, computing a metric. *)
Definition is_score_call (ev : event) : bool :=
  match ev with
  | EvReadCsv _ _ | EvSklearn _ => true
  | _ => false
  end.

(** Calls of the validation checks. *)
Definition is_check_call (ev : event) : bool :=
  match ev with
  | EvVtk _ => true
  | _ => false
  end.

(** Calls made on the way to the checks and by them: the folder lookup,
    loading a table, a check. *)
Definition is_validation_call (ev : event) : bool :=
  match ev with
  | EvGlob _ | EvReadCsv _ _ | EvVtk _ => true
  | _ => false
  end.

(** The lookup of the goldstandard folder. *)
Definition is_glob_call (ev : event) : bool :=
  match ev with
  | EvGlob _ => true
  | _ => false
  end.

(** The run handed [v] to [json.dumps], that is, it recorded [v]. *)
Definition records {A} (m : M A) (v : pyval) : Prop :=
  In (EvJsonDumps v) (trace m).

(** The warning of the scorer, and when it is printed: after loading the
    record [d]. *)
Definition warning : string :=
  "Validation results not found. Proceeding with scoring but results may be inaccurate.".

Definition warning_events (d : dict) : list event :=
  if truthy (get_or_none "validation_status" d) then [] else [EvPrint warning].

(** How both drivers end: the record is written and the status printed,
    unless the results file cannot be opened for writing. *)
Definition closing_run {L : Libs} (w : world) (o : string) (res : pyval)
    (status : string) : M unit :=
  match open_w w o with
  | Ok _ =>
      ([EvOpen o ModeW; EvJsonDumps res; EvWrite o (json_dumps res);
        EvPrint status], Ok tt)
  | Raise e => ([EvOpen o ModeW], Raise e)
  end.

(** The three ways in which the scorer gets to record a result: the
    record [d] it loaded, the fields it lays over [d], the status. *)
Inductive score_path {L : Libs} (w : world) (p g o : string)
    : dict -> dict -> string -> Prop :=
| PathInvalid (d : dict) :
    result (score.load_results w o) = Ok (PyDict d) ->
    py_eq_str (get_or_none "validation_status" d) "INVALID" = true ->
    score_path w p g o d
      [("score_status", PyStr "INVALID");
       ("score_errors",
        PyStr "Submission could not be evaluated due to validation errors.")]
      "INVALID"
| PathFailed (d : dict) (gold_file : string) (e : exn) :
    result (score.load_results w o) = Ok (PyDict d) ->
    py_eq_str (get_or_none "validation_status" d) "INVALID" = false ->
    glob w g = [gold_file] ->
    result (score.score w gold_file p) = Raise e ->
    isinstance e [ValueError] = true ->
    score_path w p g o d
      [("score_status", PyStr "INVALID");
       ("score_errors",
        PyStr "Error encountered during scoring; submission not evaluated.")]
      "INVALID"
| PathScored (d : dict) (gold_file : string) (roc area : float) :
    result (score.load_results w o) = Ok (PyDict d) ->
    py_eq_str (get_or_none "validation_status" d) "INVALID" = false ->
    glob w g = [gold_file] ->
    result (score.score w gold_file p)
      = Ok [("auc_roc", PyFloat roc); ("auprc", PyFloat area)] ->
    score_path w p g o d
      [("score_status", PyStr "SCORED"); ("score_errors", PyStr "");
       ("auc_roc", PyFloat roc); ("auprc", PyFloat area)]
      "SCORED".


(** The record [d] is what the results file holds, or the blank record
    when the file is absent or its text is no JSON. *)
Definition loaded_or_blank {L : Libs} (w : world) (o : string) (d : dict)
    : Prop :=
  match open_r w o with
  | Ok text =>
      match json_loads text with
      | Ok v => v = PyDict d
      | Raise e =>
          isinstance e [FileNotFoundError; JSONDecodeError] = true
          /\ d = score.blank_record
      end
  | Raise e =>
      isinstance e [FileNotFoundError; JSONDecodeError] = true
      /\ d = score.blank_record
  end.

(** The record of the validator for the joined error text. *)
Definition validation_record (joined : string) : pyval :=
  PyDict [("validation_status", PyStr (validate.status_of joined));
          ("validation_errors", PyStr (validate.truncate joined))].

(** The error strings the validator driver collects: the text of the
    predictions file when its path carries the sentinel, else what
    [validate] returns for the single goldstandard file. *)
Definition collected {L : Libs} (w : world) (p g : string)
    (errors : list string) : Prop :=
  if str_contains "INVALID" p
  then exists text, open_r w p = Ok text /\ errors = [text]
  else exists gold_file,
         glob w g = [gold_file]
         /\ result (validate.validate w gold_file p) = Ok errors.

(** The messages of the five checks of [validate], in the order of the
    calls. *)
Definition checks {L : Libs} (gold : list gold_row) (pred : list pred_row)
    : list string :=
  [check_duplicate_keys (map pred_id pred);
   check_missing_keys (map gold_id gold) (map pred_id pred);
   check_unknown_keys (map gold_id gold) (map pred_id pred);
   check_nan_values (map probability pred);
   check_values_range (map probability pred) 0%float 1%float].

(** The message of [validate] for a predictions file that does not load. *)
Definition schema_error (e : exn) : string :=
  ("Invalid column names and/or types: " ++ exn_str e ++ ". "
   ++ "Expecting: " ++ validate.PREDICTION_COLS_str ++ ".")%string.

(** When the validator driver ends normally: the results file can be
    opened for writing and, with the sentinel in the path, the
    predictions file can be read; without it, the folder holds one file,
    the goldstandard table loads, and the predictions table loads or
    fails with a ValueError. *)
Definition validate_completes (w : world) (p g o : string) : Prop :=
  open_w w o = Ok tt
  /\ if str_contains "INVALID" p
     then exists text, open_r w p = Ok text
     else exists gold_file,
            glob w g = [gold_file]
            /\ (exists gold, read_csv_gold w gold_file = Ok gold)
            /\ match read_csv_pred w p with
               | Ok _ => True
               | Raise e => isinstance e [ValueError] = true
               end.


(** A write of text to a file. *)
Definition is_write (ev : event) : bool :=
  match ev with
  | EvWrite _ _ => true
  | _ => false
  end.

(** The keys a [dict] update adds: those of [other] that [d] lacks, each
    once, in the order of [other]. *)
Fixpoint new_keys (d other : dict) : list string :=
  match other with
  | [] => []
  | (k, v) :: other' =>
      match dict_get k d with
      | Some _ => new_keys (dict_set k v d) other'
      | None => k :: new_keys (dict_set k v d) other'
      end
  end.

(** More example worlds. *)
Module Cases.

(** The world [w] with the text file [path] replaced. *)
Definition with_file (w : world) (path : string) (content : outcome string)
    : world :=
  {| glob := glob w;
     open_r := fun x => if String.eqb x path then content else open_r w x;
     open_w := open_w w;
     read_csv_pred := read_csv_pred w;
     read_csv_gold := read_csv_gold w |}.

(** An empty file under a sentinel name. *)
Definition empty_sentinel_world : world :=
  with_file Sample.fresh_world "INVALID_empty.txt" (Ok "").

(** A results file that holds the JSON list [[]]. *)
Definition list_results_world : world :=
  with_file Sample.fresh_world "results.json" (Ok "[]").

(** The record of the scorer for a submission that failed validation. *)
Definition invalid_scored_record : dict :=
  dict_update Sample.invalid_record
    [("score_status", PyStr "INVALID");
     ("score_errors",
      PyStr "Submission could not be evaluated due to validation errors.")].

(** The libraries of the examples, with a reader that also knows the
    text of [invalid_scored_record]. *)
Definition json_loads (text : string) : outcome pyval :=
  if String.eqb text (Sample.json_dumps (PyDict invalid_scored_record))
  then Ok (PyDict invalid_scored_record)
  else Sample.json_loads text.

Definition libs : Libs :=
  mkLibs json_loads Sample.json_dumps
         Sample.check_duplicate_keys Sample.check_missing_keys
         Sample.check_unknown_keys
         Sample.check_nan_values Sample.check_values_range
         Sample.merge_left_on_id
         Sample.roc_auc_score Sample.precision_recall_curve Sample.auc.

(** The results file after the scorer ran on a failed validation. *)
Definition rerun_world : world :=
  with_file Sample.fresh_world "results.json"
    (Ok (Sample.json_dumps (PyDict invalid_scored_record))).

End Cases.

(** The results file is absent, or its text is no JSON. *)
Definition no_results {L : Libs} (w : world) (o : string) : Prop :=
  match open_r w o with
  | Ok text =>
      match json_loads text with
      | Ok _ => False
      | Raise e => isinstance e [FileNotFoundError; JSONDecodeError] = true
      end
  | Raise e => isinstance e [FileNotFoundError; JSONDecodeError] = true
  end.

(** * Properties *)

(** ** Dictionaries *)

Lemma dict_get_set_same (k : string) (v : pyval) (d : dict) :
  dict_get k (dict_set k v d) = Some v.
Proof.
  induction d as [|[k' v'] d IH]; simpl.
  - now rewrite String.eqb_refl.
  - destruct (String.eqb k k') eqn:E; simpl; rewrite E; auto.
Qed.

Lemma dict_get_set_other (k k' : string) (v : pyval) (d : dict) :
  k <> k' -> dict_get k' (dict_set k v d) = dict_get k' d.
Proof.
  intros Hne. induction d as [|[k0 v0] d IH]; simpl.
  - destruct (String.eqb k' k) eqn:E; auto.
    apply String.eqb_eq in E. congruence.
  - destruct (String.eqb k k0) eqn:E; simpl.
    + apply String.eqb_eq in E. subst k0.
      destruct (String.eqb k' k) eqn:E'; auto.
      apply String.eqb_eq in E'. congruence.
    + now rewrite IH.
Qed.

Lemma dict_get_none_keys (k : string) (d : dict) :
  dict_get k d = None <-> ~ In k (dict_keys d).
Proof.
  induction d as [|[k' v'] d IH]; simpl.
  - tauto.
  - destruct (String.eqb k k') eqn:E.
    + apply String.eqb_eq in E. subst. split; [discriminate | tauto].
    + apply String.eqb_neq in E. rewrite IH. split.
      * intros H [H'|H']; [congruence | tauto].
      * tauto.
Qed.

Lemma dict_update_cons (k : string) (v : pyval) (d other : dict) :
  dict_update d ((k, v) :: other) = dict_update (dict_set k v d) other.
Proof. reflexivity. Qed.

(** Keys outside the overlay keep their value. *)
Lemma dict_update_retains (k : string) (d other : dict) :
  dict_get k other = None ->
  dict_get k (dict_update d other) = dict_get k d.
Proof.
  revert d. induction other as [|[k' v'] other IH]; intros d H.
  - reflexivity.
  - simpl in H. destruct (String.eqb k k') eqn:E; [discriminate|].
    apply String.eqb_neq in E.
    rewrite dict_update_cons, IH by assumption.
    apply dict_get_set_other. congruence.
Qed.

(** Keys of the overlay take its value. *)
Lemma dict_update_overwrites (k : string) (v : pyval) (d other : dict) :
  NoDup (dict_keys other) ->
  dict_get k other = Some v ->
  dict_get k (dict_update d other) = Some v.
Proof.
  revert d. induction other as [|[k' v'] other IH]; intros d Hnd H.
  - discriminate.
  - simpl in Hnd, H. inversion Hnd as [|? ? Hnotin Hnd']; subst.
    rewrite dict_update_cons.
    destruct (String.eqb k k') eqn:E.
    + apply String.eqb_eq in E. subst k'. inversion H; subst v'.
      rewrite dict_update_retains.
      * apply dict_get_set_same.
      * now apply dict_get_none_keys.
    + now apply IH.
Qed.

(** ** Strings *)

Lemma length_append (s1 s2 : string) :
  String.length (s1 ++ s2) = (String.length s1 + String.length s2)%nat.
Proof. induction s1 as [|c s1 IH]; simpl; [reflexivity | now rewrite IH]. Qed.

Lemma slice_to_length (n : nat) (s : string) :
  (n <= String.length s)%nat -> String.length (slice_to n s) = n.
Proof.
  unfold slice_to. revert s. induction n as [|n IH]; intros s Hn.
  - destruct s; reflexivity.
  - destruct s as [|c s]; simpl in *; [lia|]. rewrite IH; lia.
Qed.

Lemma slice_to_prefix (n : nat) (s : string) :
  String.prefix (slice_to n s) s = true.
Proof.
  unfold slice_to. revert s. induction n as [|n IH]; intros s.
  - destruct s; reflexivity.
  - destruct s as [|c s]; simpl; [reflexivity|].
    destruct (ascii_dec c c); [apply IH | congruence].
Qed.

Lemma join_single (sep text : string) : join sep [text] = text.
Proof. reflexivity. Qed.

Lemma append_empty (s1 s2 : string) :
  (s1 ++ s2)%string = "" -> s1 = "" /\ s2 = "".
Proof. destruct s1; simpl; [auto | discriminate]. Qed.

(** The joined text is empty only for no error, or for one empty error. *)
Lemma join_empty (errors : list string) :
  join newline errors = "" -> errors = [] \/ errors = [""].
Proof.
  destruct errors as [|x [|y rest]]; simpl; auto.
  - intros ->. auto.
  - intros H. apply append_empty in H. destruct H as [_ H]. discriminate.
Qed.

Lemma join_nonempty (errors : list string) (message : string) :
  In message errors -> message <> "" -> join newline errors <> "".
Proof.
  intros Hin Hne Hj. destruct (join_empty _ Hj) as [->| ->].
  - destruct Hin.
  - destruct Hin as [<-|[]]. now apply Hne.
Qed.

Lemma status_of_invalid (joined : string) :
  validate.status_of joined = "INVALID" <-> joined <> "".
Proof.
  unfold validate.status_of, truthy.
  destruct (String.eqb_spec joined ""); simpl; split; congruence.
Qed.

Lemma status_of_validated (joined : string) :
  validate.status_of joined = "VALIDATED" <-> joined = "".
Proof.
  unfold validate.status_of, truthy.
  destruct (String.eqb_spec joined ""); simpl; split; congruence.
Qed.

Lemma filter_none_spec (l : list string) (message : string) :
  In message (filter_none l) <-> In message l /\ message <> "".
Proof.
  unfold filter_none. rewrite filter_In.
  destruct (String.eqb_spec message ""); simpl; intuition congruence.
Qed.

(** ** The runs of the scorer *)

Section ScoreRuns.
Context {L : Libs}.

Lemma load_results_run (w : world) (o : string) :
  score.load_results w o = ([EvOpen o ModeR], result (score.load_results w o)).
Proof.
  unfold score.load_results, try_except, try_except_else, read_file, call,
    lift, bind.
  destruct (open_r w o) as [text|e]; cbn -[isinstance].
  - destruct (json_loads text) as [v|e]; cbn -[isinstance]; auto.
    destruct (isinstance e _); auto.
  - destruct (isinstance e _); auto.
Qed.

Lemma load_results_parsed (w : world) (o text : string) (v : pyval) :
  open_r w o = Ok text ->
  json_loads text = Ok v ->
  result (score.load_results w o) = Ok v.
Proof.
  intros Hr Hj.
  unfold score.load_results, try_except, try_except_else, read_file, call,
    lift, bind.
  now rewrite Hr, Hj.
Qed.

(** The results file cannot be loaded and the error is not caught. *)
Lemma main_load_raises (w : world) (p g o : string) (e : exn) :
  result (score.load_results w o) = Raise e ->
  score.main w p g o = ([EvOpen o ModeR], Raise e).
Proof.
  intros Hl. unfold score.main. rewrite load_results_run, Hl. reflexivity.
Qed.

(** The results file holds a JSON value that is not an object. *)
Lemma main_not_a_dict (w : world) (p g o : string) (v : pyval) :
  result (score.load_results w o) = Ok v ->
  (forall d, v <> PyDict d) ->
  score.main w p g o =
    ([EvOpen o ModeR],
     Raise (mkExn AttributeError
              ("'" ++ type_name v ++ "' object has no attribute 'get'")%string)).
Proof.
  intros Hl Hv. unfold score.main. rewrite load_results_run, Hl.
  destruct v; try reflexivity. now destruct (Hv d).
Qed.

(** The whole run of the scorer on a record marked INVALID. *)
Lemma main_invalid_run (w : world) (p g o : string) (d : dict) :
  result (score.load_results w o) = Ok (PyDict d) ->
  py_eq_str (get_or_none "validation_status" d) "INVALID" = true ->
  let res :=
    PyDict (dict_update d
      [("score_status", PyStr "INVALID");
       ("score_errors",
        PyStr "Submission could not be evaluated due to validation errors.")]) in
  score.main w p g o =
    match open_w w o with
    | Ok _ =>
        ([EvOpen o ModeR; EvOpen o ModeW; EvJsonDumps res;
          EvWrite o (json_dumps res); EvPrint "INVALID"], Ok tt)
    | Raise e => ([EvOpen o ModeR; EvOpen o ModeW], Raise e)
    end.
Proof.
  intros Hl Hs res.
  unfold score.main. rewrite load_results_run, Hl.
  unfold bind at 1. cbn [py_get ret].
  destruct (get_or_none "validation_status" d) eqn:Hv; try discriminate.
  simpl in Hs. apply String.eqb_eq in Hs. subst s.
  cbn. destruct (open_w w o); reflexivity.
Qed.

Ltac run_main :=
  cbn -[score.score dict_update isinstance utils.extract_gs_file].

Lemma extract_gs_file_run (w : world) (folder : string) :
  utils.extract_gs_file w folder =
    ([EvGlob folder],
     match glob w folder with
     | [file] => Ok file
     | files =>
         Raise (mkExn ValueError
                  ("Expected exactly one goldstandard file in folder. Got "
                   ++ str_of_nat (List.length files) ++ ". Exiting.")%string)
     end).
Proof.
  unfold utils.extract_gs_file, call, bind.
  destruct (glob w folder) as [|f [|f' fs]]; reflexivity.
Qed.

(** The scorer reaches the goldstandard lookup and the lookup fails. *)
Lemma main_bad_folder (w : world) (p g o : string) (d : dict) :
  result (score.load_results w o) = Ok (PyDict d) ->
  py_eq_str (get_or_none "validation_status" d) "INVALID" = false ->
  List.length (glob w g) <> 1%nat ->
  exists e,
    result (utils.extract_gs_file w g) = Raise e
    /\ score.main w p g o =
         ([EvOpen o ModeR] ++ warning_events d ++ [EvGlob g], Raise e).
Proof.
  intros Hl Hs Hg.
  unfold score.main. rewrite load_results_run, Hl.
  cbn [bind py_get ret app]. unfold warning_events.
  rewrite extract_gs_file_run.
  destruct (glob w g) as [|f [|f' fs]]; try (simpl in Hg; congruence);
    (eexists; split; [reflexivity|]);
    destruct (truthy (get_or_none "validation_status" d)); cbn; rewrite Hs;
    reflexivity.
Qed.

(** The scorer reaches [score]. *)
Lemma main_scoring_run (w : world) (p g o gold_file : string) (d : dict) :
  result (score.load_results w o) = Ok (PyDict d) ->
  py_eq_str (get_or_none "validation_status" d) "INVALID" = false ->
  glob w g = [gold_file] ->
  let before := [EvOpen o ModeR] ++ warning_events d ++ [EvGlob g]
                ++ trace (score.score w gold_file p) in
  score.main w p g o =
    match result (score.score w gold_file p) with
    | Ok scores =>
        let res := PyDict (dict_update d
                     (dict_update [("score_status", PyStr "SCORED");
                                   ("score_errors", PyStr "")] scores)) in
        (before ++ trace (closing_run w o res "SCORED"),
         result (closing_run w o res "SCORED"))
    | Raise e =>
        if isinstance e [ValueError]
        then
          let res := PyDict (dict_update d
                       [("score_status", PyStr "INVALID");
                        ("score_errors",
                         PyStr "Error encountered during scoring; submission not evaluated.")]) in
          (before ++ [EvPrint ("Error encountered: " ++ exn_str e)%string]
                  ++ trace (closing_run w o res "INVALID"),
           result (closing_run w o res "INVALID"))
        else (before, Raise e)
    end.
Proof.
  intros Hl Hs Hg before. subst before.
  unfold score.main. rewrite load_results_run, Hl.
  unfold warning_events, closing_run.
  destruct (truthy (get_or_none "validation_status" d)) eqn:Ht;
    run_main; rewrite ?Ht, Hs; run_main;
    rewrite extract_gs_file_run, Hg; run_main;
    (destruct (score.score w gold_file p) as [ts [scores|e]]; run_main;
     [| destruct (isinstance e [ValueError]); run_main; try reflexivity]);
    destruct (open_w w o); run_main; rewrite <- ?app_assoc; reflexivity.
Qed.

(** [score] only loads tables and computes metrics, and what it returns
    are the two metrics. *)
Lemma score_calls (w : world) (gold_file p : string) :
  forallb is_score_call (trace (score.score w gold_file p)) = true.
Proof.
  unfold score.score, score.sklearn, call, bind.
  destruct (read_csv_pred w p); [|reflexivity].
  destruct (read_csv_gold w gold_file); [|reflexivity].
  destruct (roc_auc_score _ _); [|reflexivity].
  destruct (precision_recall_curve _ _) as [[[? ?] ?]|]; [|reflexivity].
  destruct (auc _ _); reflexivity.
Qed.

Lemma score_returns (w : world) (gold_file p : string) (scores : dict) :
  result (score.score w gold_file p) = Ok scores ->
  exists roc area,
    scores = [("auc_roc", PyFloat roc); ("auprc", PyFloat area)].
Proof.
  unfold score.score, score.sklearn, call, bind.
  destruct (read_csv_pred w p); [|discriminate].
  destruct (read_csv_gold w gold_file); [|discriminate].
  destruct (roc_auc_score _ _) as [roc|]; [|discriminate].
  destruct (precision_recall_curve _ _) as [[[? ?] ?]|]; [|discriminate].
  destruct (auc _ _) as [area|]; [|discriminate].
  simpl. intros H. inversion H. eauto.
Qed.

Lemma score_call_not_dumps (t : list event) (v : pyval) :
  forallb is_score_call t = true -> ~ In (EvJsonDumps v) t.
Proof.
  intros H Hin. rewrite forallb_forall in H. now apply H in Hin.
Qed.

Lemma warning_not_dumps (d : dict) (v : pyval) :
  ~ In (EvJsonDumps v) (warning_events d).
Proof.
  unfold warning_events. destruct (truthy _); simpl; intuition discriminate.
Qed.

Lemma trace_pair {A} (t : list event) (r : outcome A) : trace (t, r) = t.
Proof. reflexivity. Qed.

Lemma result_pair {A} (t : list event) (r : outcome A) : result (t, r) = r.
Proof. reflexivity. Qed.

Lemma closing_run_records (w : world) (o : string) (res v : pyval)
    (status : string) :
  In (EvJsonDumps v) (trace (closing_run w o res status)) ->
  v = res
  /\ closing_run w o res status =
       ([EvOpen o ModeW; EvJsonDumps res; EvWrite o (json_dumps res);
         EvPrint status], Ok tt).
Proof.
  unfold closing_run. destruct (open_w w o) as [[]|e]; simpl.
  - intros [H|[H|[H|[H|[]]]]]; try discriminate.
    inversion H. now split.
  - intros [H|[]]. discriminate.
Qed.

(** Every record the scorer hands to [json.dumps] comes from one of the
    three paths; it is the loaded record with the new fields laid over
    it, it is written to the results file, and the run ends normally
    with the status printed last. *)
Lemma records_main_inv (w : world) (p g o : string) (v : pyval) :
  records (score.main w p g o) v ->
  exists d overlay status,
    score_path w p g o d overlay status
    /\ v = PyDict (dict_update d overlay)
    /\ exists before,
         score.main w p g o =
           (before ++ [EvOpen o ModeW; EvJsonDumps v;
                       EvWrite o (json_dumps v); EvPrint status], Ok tt).
Proof.
  unfold records. intros Hrec.
  destruct (result (score.load_results w o)) as [res|e] eqn:Hl.
  2:{ rewrite (main_load_raises w p g o e Hl) in Hrec.
      simpl in Hrec. intuition discriminate. }
  destruct res as [| | | | | |d];
    try (rewrite (main_not_a_dict w p g o _ Hl) in Hrec by discriminate;
         simpl in Hrec; intuition discriminate).
  destruct (py_eq_str (get_or_none "validation_status" d) "INVALID") eqn:Hs.
  - pose proof (main_invalid_run w p g o d Hl Hs) as Hrun. cbv zeta in Hrun.
    rewrite Hrun in Hrec |- *.
    destruct (open_w w o) as [[]|e].
    + simpl in Hrec.
      destruct Hrec as [H|[H|[H|[H|[H|[]]]]]]; try discriminate.
      inversion H; subst v.
      do 3 eexists. split; [eapply PathInvalid; eassumption|].
      split; [reflexivity|]. exists [EvOpen o ModeR]. reflexivity.
    + simpl in Hrec. intuition discriminate.
  - assert (Hwarn : forall t,
              ~ In (EvJsonDumps v) t ->
              ~ In (EvJsonDumps v)
                  ([EvOpen o ModeR] ++ warning_events d ++ [EvGlob g] ++ t)).
    { intros t Ht. rewrite !in_app_iff. intros [H|[H|[H|H]]];
        try (simpl in H; intuition discriminate); try contradiction.
      now apply warning_not_dumps in H. }
    destruct (glob w g) as [|gold_file [|f' fs]] eqn:Hg.
    1,3: destruct (main_bad_folder w p g o d Hl Hs) as [e [_ Hrun]];
         [rewrite Hg; simpl; lia|];
         rewrite Hrun, trace_pair in Hrec;
         exfalso; apply (Hwarn []); [intros []|];
         now rewrite app_nil_r.
    pose proof (main_scoring_run w p g o gold_file d Hl Hs Hg) as Hrun.
    cbv zeta in Hrun.
    specialize (Hwarn _ (score_call_not_dumps _ v (score_calls w gold_file p))).
    destruct (result (score.score w gold_file p)) as [scores|e] eqn:Hsc.
    + destruct (score_returns _ _ _ _ Hsc) as [roc [area ->]].
      rewrite Hrun in Hrec |- *. rewrite trace_pair in Hrec.
      apply in_app_or in Hrec. destruct Hrec as [H|H]; [contradiction|].
      apply closing_run_records in H. destruct H as [-> Hclose].
      rewrite Hclose.
      do 3 eexists. split; [eapply PathScored; eassumption|].
      split; [reflexivity|]. eexists. reflexivity.
    + rewrite Hrun in Hrec |- *.
      destruct (isinstance e [ValueError]) eqn:Hi;
        [|rewrite trace_pair in Hrec; contradiction].
      rewrite trace_pair in Hrec.
      apply in_app_or in Hrec. destruct Hrec as [H|H]; [contradiction|].
      apply in_app_or in H. destruct H as [H|H].
      { simpl in H. intuition discriminate. }
      apply closing_run_records in H. destruct H as [-> Hclose].
      rewrite Hclose.
      do 3 eexists. split; [eapply PathFailed; eassumption|].
      split; [reflexivity|].
      eexists. rewrite trace_pair. simpl result.
      rewrite app_assoc. reflexivity.
Qed.

Lemma load_results_inv (w : world) (o : string) (d : dict) :
  result (score.load_results w o) = Ok (PyDict d) -> loaded_or_blank w o d.
Proof.
  unfold score.load_results, loaded_or_blank, try_except, try_except_else,
    read_file, call, lift, bind.
  destruct (open_r w o) as [text|e]; cbn -[isinstance].
  - destruct (json_loads text) as [v|e]; cbn -[isinstance].
    + congruence.
    + destruct (isinstance e _); cbn; [|discriminate].
      intros H. inversion H. now split.
  - destruct (isinstance e _); cbn; [|discriminate].
    intros H. inversion H. now split.
Qed.

Lemma score_path_overlay (w : world) (p g o : string) (d overlay : dict)
    (status : string) :
  score_path w p g o d overlay status ->
  NoDup (dict_keys overlay)
  /\ dict_get "score_status" overlay = Some (PyStr status)
  /\ (exists errors, dict_get "score_errors" overlay = Some (PyStr errors))
  /\ dict_get "validation_status" overlay = None
  /\ dict_get "validation_errors" overlay = None
  /\ (status = "SCORED" \/ status = "INVALID").
Proof.
  intros H; inversion H; subst;
    (split; [repeat constructor; simpl; intuition discriminate|]);
    (split; [reflexivity|]);
    (split; [eexists; reflexivity|]);
    (split; [reflexivity|]);
    (split; [reflexivity|]); auto.
Qed.


End ScoreRuns.

(** ** The runs of the validator *)

Section ValidateRuns.
Context {L : Libs}.

Ltac run_validate :=
  cbn -[isinstance String.append validate.PREDICTION_COLS_str].

Lemma validate_gold_raises (w : world) (gold_file p : string) (e : exn) :
  read_csv_gold w gold_file = Raise e ->
  validate.validate w gold_file p =
    ([EvReadCsv gold_file GoldstandardTable], Raise e).
Proof.
  intros Hg. unfold validate.validate, call. rewrite Hg. reflexivity.
Qed.

Lemma validate_loaded (w : world) (gold_file p : string)
    (gold : list gold_row) (pred : list pred_row) :
  read_csv_gold w gold_file = Ok gold ->
  read_csv_pred w p = Ok pred ->
  validate.validate w gold_file p =
    ([EvReadCsv gold_file GoldstandardTable; EvReadCsv p PredictionTable;
      EvVtk CheckDuplicateKeys; EvVtk CheckMissingKeys;
      EvVtk CheckUnknownKeys; EvVtk CheckNanValues; EvVtk CheckValuesRange],
     Ok (filter_none (checks gold pred))).
Proof.
  intros Hg Hp.
  unfold validate.validate, validate.vtk, try_except_else, call.
  rewrite Hg, Hp. reflexivity.
Qed.

Lemma validate_schema_error (w : world) (gold_file p : string)
    (gold : list gold_row) (e : exn) :
  read_csv_gold w gold_file = Ok gold ->
  read_csv_pred w p = Raise e ->
  validate.validate w gold_file p =
    ([EvReadCsv gold_file GoldstandardTable; EvReadCsv p PredictionTable],
     if isinstance e [ValueError] then Ok [schema_error e] else Raise e).
Proof.
  intros Hg Hp.
  unfold validate.validate, validate.vtk, try_except_else, call.
  rewrite Hg, Hp. run_validate.
  destruct (isinstance e [ValueError]); reflexivity.
Qed.

Lemma validate_main_sentinel_run (w : world) (p g o : string) :
  str_contains "INVALID" p = true ->
  validate.main w p g o =
    match open_r w p with
    | Ok text =>
        ([EvOpen p ModeR]
         ++ trace (closing_run w o (validation_record text)
                               (validate.status_of text)),
         result (closing_run w o (validation_record text)
                             (validate.status_of text)))
    | Raise e => ([EvOpen p ModeR], Raise e)
    end.
Proof.
  intros Hs. unfold validate.main, read_file, call, closing_run.
  rewrite Hs. destruct (open_r w p) as [text|e]; [|reflexivity].
  cbn -[validate.status_of validate.truncate].
  destruct (open_w w o); reflexivity.
Qed.

Lemma validate_main_bad_folder (w : world) (p g o : string) :
  str_contains "INVALID" p = false ->
  List.length (glob w g) <> 1%nat ->
  exists e,
    result (utils.extract_gs_file w g) = Raise e
    /\ validate.main w p g o = ([EvGlob g], Raise e).
Proof.
  intros Hs Hg. unfold validate.main. rewrite Hs, extract_gs_file_run.
  destruct (glob w g) as [|f [|f' fs]]; try (simpl in Hg; congruence);
    eexists; split; reflexivity.
Qed.

Lemma validate_main_checks_run (w : world) (p g o gold_file : string) :
  str_contains "INVALID" p = false ->
  glob w g = [gold_file] ->
  validate.main w p g o =
    match result (validate.validate w gold_file p) with
    | Ok errors =>
        let joined := join newline errors in
        ([EvGlob g] ++ trace (validate.validate w gold_file p)
         ++ trace (closing_run w o (validation_record joined)
                               (validate.status_of joined)),
         result (closing_run w o (validation_record joined)
                             (validate.status_of joined)))
    | Raise e =>
        ([EvGlob g] ++ trace (validate.validate w gold_file p), Raise e)
    end.
Proof.
  intros Hs Hg. unfold validate.main, closing_run.
  rewrite Hs, extract_gs_file_run, Hg.
  cbn -[validate.validate validate.status_of validate.truncate join].
  destruct (validate.validate w gold_file p) as [tv [errors|e]];
    cbn -[validate.status_of validate.truncate join]; [|reflexivity].
  destruct (open_w w o); cbn -[validate.status_of validate.truncate join];
    reflexivity.
Qed.

(** [validate] only loads the two tables and runs checks. *)
Lemma validate_calls (w : world) (gold_file p : string) :
  forallb is_validation_call (trace (validate.validate w gold_file p)) = true.
Proof.
  destruct (read_csv_gold w gold_file) as [gold|e] eqn:Hg.
  - destruct (read_csv_pred w p) as [pred|e] eqn:Hp.
    + now rewrite (validate_loaded w gold_file p gold pred Hg Hp).
    + now rewrite (validate_schema_error w gold_file p gold e Hg Hp).
  - now rewrite (validate_gold_raises w gold_file p e Hg).
Qed.

(** Every record the validator hands to [json.dumps] is the record of
    the joined text of the errors it collected; it is written to the
    results file and the run ends normally with the status printed last. *)
Lemma records_validate_main_inv (w : world) (p g o : string) (v : pyval) :
  records (validate.main w p g o) v ->
  exists errors,
    collected w p g errors
    /\ v = validation_record (join newline errors)
    /\ exists before,
         validate.main w p g o =
           (before ++ [EvOpen o ModeW; EvJsonDumps v;
                       EvWrite o (json_dumps v);
                       EvPrint (validate.status_of (join newline errors))],
            Ok tt).
Proof.
  unfold records, collected. intros Hrec.
  destruct (str_contains "INVALID" p) eqn:Hs.
  - rewrite (validate_main_sentinel_run w p g o Hs) in Hrec |- *.
    destruct (open_r w p) as [text|e].
    + rewrite trace_pair in Hrec. apply in_app_or in Hrec.
      destruct Hrec as [H|H]; [simpl in H; intuition discriminate|].
      apply closing_run_records in H. destruct H as [-> Hclose].
      rewrite Hclose. exists [text].
      split; [exists text; now split|]. split; [reflexivity|].
      eexists. reflexivity.
    + simpl in Hrec. intuition discriminate.
  - destruct (glob w g) as [|gold_file [|f' fs]] eqn:Hg.
    1,3: destruct (validate_main_bad_folder w p g o Hs) as [e [_ Hrun]];
         [rewrite Hg; simpl; lia|];
         rewrite Hrun in Hrec; simpl in Hrec; intuition discriminate.
    rewrite (validate_main_checks_run w p g o gold_file Hs Hg) in Hrec |- *.
    assert (Hv : ~ In (EvJsonDumps v)
                   ([EvGlob g] ++ trace (validate.validate w gold_file p))).
    { intros H. apply in_app_or in H.
      destruct H as [H|H]; [simpl in H; intuition discriminate|].
      pose proof (validate_calls w gold_file p) as Hc.
      rewrite forallb_forall in Hc. now apply Hc in H. }
    destruct (result (validate.validate w gold_file p)) as [errors|e] eqn:Hr.
    + cbv zeta in Hrec |- *. rewrite trace_pair, app_assoc in Hrec.
      apply in_app_or in Hrec. destruct Hrec as [H|H]; [contradiction|].
      apply closing_run_records in H. destruct H as [-> Hclose].
      rewrite Hclose. exists errors.
      split; [exists gold_file; now split|]. split; [reflexivity|].
      eexists. rewrite trace_pair. simpl result.
      rewrite app_assoc. reflexivity.
    + rewrite trace_pair in Hrec. contradiction.
Qed.

(** The run of the validator driver on tables that load. *)
Lemma validate_main_loaded_run (w : world) (p g o gold_file : string)
    (gold : list gold_row) (pred : list pred_row) :
  str_contains "INVALID" p = false ->
  glob w g = [gold_file] ->
  read_csv_gold w gold_file = Ok gold ->
  read_csv_pred w p = Ok pred ->
  open_w w o = Ok tt ->
  let joined := join newline (filter_none (checks gold pred)) in
  validate.main w p g o =
    ([EvGlob g; EvReadCsv gold_file GoldstandardTable;
      EvReadCsv p PredictionTable;
      EvVtk CheckDuplicateKeys; EvVtk CheckMissingKeys;
      EvVtk CheckUnknownKeys; EvVtk CheckNanValues; EvVtk CheckValuesRange;
      EvOpen o ModeW; EvJsonDumps (validation_record joined);
      EvWrite o (json_dumps (validation_record joined));
      EvPrint (validate.status_of joined)], Ok tt).
Proof.
  intros Hs Hg Hgold Hpred Hw joined.
  rewrite (validate_main_checks_run w p g o gold_file Hs Hg).
  rewrite (validate_loaded w gold_file p gold pred Hgold Hpred).
  unfold closing_run. rewrite Hw. reflexivity.
Qed.

Lemma conformant_checks_pass {S : VtkSpec L}
    (gold : list gold_row) (pred : list pred_row) :
  conformant gold pred -> filter_none (checks gold pred) = [].
Proof.
  intros (Hnd & Hmiss & Hunk & Hnan & Hrange). unfold checks.
  rewrite (proj2 (duplicate_keys_spec _) Hnd).
  rewrite (proj2 (missing_keys_spec _ _) Hmiss).
  rewrite (proj2 (unknown_keys_spec _ _) Hunk).
  rewrite (proj2 (nan_values_spec _) Hnan).
  rewrite (values_range_pass _ _ _ Hrange).
  reflexivity.
Qed.

End ValidateRuns.

(** ** Which errors abort a stage *)

Section Completion.
Context {L : Libs}.

Lemma load_results_iff (w : world) (o : string) (d : dict) :
  result (score.load_results w o) = Ok (PyDict d) <-> loaded_or_blank w o d.
Proof.
  split; [apply load_results_inv|].
  unfold score.load_results, loaded_or_blank, try_except, try_except_else,
    read_file, call, lift, bind.
  destruct (open_r w o) as [text|e]; cbn -[isinstance].
  - destruct (json_loads text) as [v|e]; cbn -[isinstance].
    + now intros ->.
    + intros [-> ->]. reflexivity.
  - intros [-> ->]. reflexivity.
Qed.

Lemma closing_run_result (w : world) (o : string) (res : pyval)
    (status : string) :
  result (closing_run w o res status) = Ok tt <-> open_w w o = Ok tt.
Proof.
  unfold closing_run. destruct (open_w w o) as [[]|e]; simpl; split;
    congruence.
Qed.

Lemma validate_result (w : world) (gold_file p : string) :
  result (validate.validate w gold_file p) =
    match read_csv_gold w gold_file with
    | Raise e => Raise e
    | Ok gold =>
        match read_csv_pred w p with
        | Ok pred => Ok (filter_none (checks gold pred))
        | Raise e =>
            if isinstance e [ValueError] then Ok [schema_error e] else Raise e
        end
    end.
Proof.
  destruct (read_csv_gold w gold_file) as [gold|e] eqn:Hg.
  - destruct (read_csv_pred w p) as [pred|e] eqn:Hp.
    + now rewrite (validate_loaded w gold_file p gold pred Hg Hp).
    + now rewrite (validate_schema_error w gold_file p gold e Hg Hp).
  - now rewrite (validate_gold_raises w gold_file p e Hg).
Qed.

Lemma validate_main_completes (w : world) (p g o : string) :
  result (validate.main w p g o) = Ok tt <-> validate_completes w p g o.
Proof.
  unfold validate_completes.
  destruct (str_contains "INVALID" p) eqn:Hs.
  - rewrite (validate_main_sentinel_run w p g o Hs).
    destruct (open_r w p) as [text|e].
    + rewrite result_pair, closing_run_result. split; [eauto|tauto].
    + rewrite result_pair. split; [discriminate|].
      intros [_ [text H]]. discriminate.
  - destruct (glob w g) as [|gold_file [|f' fs]] eqn:Hg.
    1,3: destruct (validate_main_bad_folder w p g o Hs) as [e [_ Hrun]];
         [rewrite Hg; simpl; lia|];
         rewrite Hrun, result_pair; split; [discriminate|];
         intros [_ [gf [H _]]]; discriminate.
    rewrite (validate_main_checks_run w p g o gold_file Hs Hg).
    rewrite validate_result.
    destruct (read_csv_gold w gold_file) as [gold|e] eqn:Hgold.
    2:{ rewrite result_pair. split; [discriminate|].
        intros [_ [gf [H [[gold H'] _]]]]. inversion H; subst. congruence. }
    destruct (read_csv_pred w p) as [pred|e] eqn:Hpred.
    + cbv zeta. rewrite result_pair, closing_run_result.
      split; [intros Hw; split; [assumption|]; exists gold_file; eauto|tauto].
    + destruct (isinstance e [ValueError]) eqn:Hi.
      * cbv zeta. rewrite result_pair, closing_run_result.
        split; [intros Hw; split; [assumption|]; exists gold_file; eauto|tauto].
      * rewrite result_pair. split; [discriminate|].
        intros [_ [gf [_ [_ H]]]]. discriminate.
Qed.


Lemma closing_run_dumps (w : world) (o : string) (res : pyval)
    (status : string) :
  open_w w o = Ok tt ->
  In (EvJsonDumps res) (trace (closing_run w o res status)).
Proof. unfold closing_run. intros ->. simpl. tauto. Qed.


(** A run of the validator that ends normally has written a record. *)
Lemma validate_main_records (w : world) (p g o : string) :
  result (validate.main w p g o) = Ok tt ->
  exists v, records (validate.main w p g o) v.
Proof.
  intros Hdone. pose proof Hdone as Hc. apply validate_main_completes in Hc.
  destruct Hc as (Hw & Hcase). unfold records.
  destruct (str_contains "INVALID" p) eqn:Hs.
  - destruct Hcase as [text Hr].
    rewrite (validate_main_sentinel_run w p g o Hs), Hr.
    eexists. rewrite trace_pair, in_app_iff. right.
    now apply closing_run_dumps.
  - destruct Hcase as (gold_file & Hg & _).
    rewrite (validate_main_checks_run w p g o gold_file Hs Hg) in Hdone |- *.
    destruct (result (validate.validate w gold_file p)) as [errors|e].
    + eexists. cbv zeta. rewrite trace_pair, !in_app_iff. right. right.
      now apply closing_run_dumps.
    + rewrite result_pair in Hdone. discriminate.
Qed.

End Completion.

(** ** The reference instance meets the contract of the toolkit *)

Lemma SFcompare_antisym (a b : SpecFloat.spec_float) :
  SpecFloat.SFcompare b a = option_map CompOpp (SpecFloat.SFcompare a b).
Proof.
  destruct a as [sa|sa| |sa ma ea], b as [sb|sb| |sb mb eb]; simpl;
    try reflexivity;
    try (destruct sa; reflexivity);
    try (destruct sb; reflexivity);
    try (destruct sa, sb; reflexivity).
  pose proof (Pos.compare_cont_antisym ma mb Eq) as Hm. simpl in Hm.
  destruct sa, sb; simpl; try reflexivity;
    rewrite (Z.compare_antisym ea eb);
    destruct (Z.compare ea eb); simpl; try reflexivity;
    rewrite <- Hm;
    destruct (Pos.compare_cont Eq ma mb); reflexivity.
Qed.

Lemma leb_not_ltb (x y : float) :
  PrimFloat.leb x y = true -> PrimFloat.ltb y x = false.
Proof.
  rewrite FloatAxioms.leb_spec, FloatAxioms.ltb_spec.
  unfold SpecFloat.SFleb, SpecFloat.SFltb.
  rewrite (SFcompare_antisym (Prim2SF x) (Prim2SF y)).
  destruct (SpecFloat.SFcompare (Prim2SF x) (Prim2SF y)) as [[| |]|];
    simpl; congruence.
Qed.

(** A probability within the interval is not outside it. *)
Lemma within_not_outside (lo hi p : float) :
  within lo hi p -> ~ outside lo hi p.
Proof.
  intros [Hlo Hhi] [H|H].
  - apply leb_not_ltb in Hlo. congruence.
  - apply leb_not_ltb in Hhi. congruence.
Qed.

Lemma mem_In (x : string) (l : list string) : Sample.mem x l = true <-> In x l.
Proof.
  unfold Sample.mem. rewrite existsb_exists. split.
  - intros (y & Hy & E). apply String.eqb_eq in E. now subst.
  - intros H. exists x. split; [assumption | apply String.eqb_refl].
Qed.

Lemma has_duplicates_NoDup (ids : list string) :
  Sample.has_duplicates ids = false <-> NoDup ids.
Proof.
  induction ids as [|x rest IH]; simpl.
  - split; [constructor | reflexivity].
  - rewrite orb_false_iff, IH. split.
    + intros [Hm Hnd]. constructor; [|assumption].
      intros Hin. apply mem_In in Hin. congruence.
    + intros Hnd. inversion Hnd as [|? ? Hnotin Hnd']; subst.
      split; [|assumption].
      destruct (Sample.mem x rest) eqn:E; [|reflexivity].
      apply mem_In in E. contradiction.
Qed.

Lemma all_mem_incl (a b : list string) :
  forallb (fun x => Sample.mem x b) a = true <-> incl a b.
Proof.
  rewrite forallb_forall. unfold incl.
  split; intros H x Hx; apply mem_In; auto.
Qed.

Lemma sample_vtk_spec : VtkSpec Sample.libs.
Proof.
  constructor; simpl.
  - intros ids. unfold Sample.check_duplicate_keys.
    rewrite <- has_duplicates_NoDup.
    destruct (Sample.has_duplicates ids); split; congruence.
  - intros gold pred. unfold Sample.check_missing_keys.
    rewrite <- all_mem_incl.
    destruct (forallb _ gold); split; congruence.
  - intros gold pred. unfold Sample.check_unknown_keys.
    rewrite <- all_mem_incl.
    destruct (forallb _ pred); split; congruence.
  - intros ps. unfold Sample.check_nan_values, is_null.
    rewrite Forall_forall.
    destruct (existsb PrimFloat.is_nan ps) eqn:E; split; try congruence.
    + intros H. apply existsb_exists in E. destruct E as (x & Hx & Hn).
      now destruct (H x Hx).
    + intros _ x Hx Hn.
      assert (existsb PrimFloat.is_nan ps = true)
        by (apply existsb_exists; eauto).
      congruence.
  - intros ps lo hi H. unfold Sample.check_values_range.
    destruct (existsb _ ps) eqn:E; [|reflexivity].
    apply existsb_exists in E. destruct E as (x & Hx & Ho).
    rewrite Forall_forall in H. apply orb_true_iff in Ho.
    now destruct (within_not_outside lo hi x (H x Hx)).
  - intros ps lo hi H. unfold Sample.check_values_range.
    apply Exists_exists in H. destruct H as (x & Hx & Ho).
    assert (E : existsb (fun p => PrimFloat.ltb p lo || PrimFloat.ltb hi p) ps
                = true).
    { apply existsb_exists. exists x. split; [assumption|].
      now apply orb_true_iff. }
    rewrite E. discriminate.
Qed.

(** * The claims *)

(** C1: on a results record whose validation_status is "INVALID", the
    scorer loads no table and computes no metric ([score] is not
    called); it records score_status "INVALID" with the fixed message,
    and the record it writes back keeps the validation fields (and every
    other field) of the record it loaded. *)
Theorem score_skips_invalid_submission {L : Libs}
    (w : world) (p g o text : string) (d : dict) :
  open_r w o = Ok text ->
  json_loads text = Ok (PyDict d) ->
  dict_get "validation_status" d = Some (PyStr "INVALID") ->
  open_w w o = Ok tt ->
  exists res : dict,
    score.main w p g o =
      ([EvOpen o ModeR; EvOpen o ModeW; EvJsonDumps (PyDict res);
        EvWrite o (json_dumps (PyDict res)); EvPrint "INVALID"], Ok tt)
    /\ existsb is_score_call (trace (score.main w p g o)) = false
    /\ dict_get "score_status" res = Some (PyStr "INVALID")
    /\ dict_get "score_errors" res =
         Some (PyStr "Submission could not be evaluated due to validation errors.")
    /\ dict_get "validation_status" res = dict_get "validation_status" d
    /\ dict_get "validation_errors" res = dict_get "validation_errors" d
    /\ (forall k, k <> "score_status" -> k <> "score_errors" ->
                  dict_get k res = dict_get k d).
Proof.
  intros Hr Hj Hs Hw.
  assert (Hv : py_eq_str (get_or_none "validation_status" d) "INVALID" = true)
    by (unfold get_or_none; now rewrite Hs).
  pose proof (main_invalid_run w p g o d
                (load_results_parsed w o text _ Hr Hj) Hv) as Hrun.
  cbv zeta in Hrun. rewrite Hw in Hrun.
  eexists. split; [exact Hrun|]. rewrite Hrun.
  split; [reflexivity|].
  split; [now apply dict_update_overwrites;
          [repeat constructor; simpl; intuition discriminate|]|].
  split; [now apply dict_update_overwrites;
          [repeat constructor; simpl; intuition discriminate|]|].
  split; [now apply dict_update_retains|].
  split; [now apply dict_update_retains|].
  intros k H1 H2. apply dict_update_retains. simpl.
  destruct (String.eqb_spec k "score_status"); [contradiction|].
  destruct (String.eqb_spec k "score_errors"); [contradiction|].
  reflexivity.
Qed.

Lemma score_skips_invalid_submission_witness :
  result (score.main (L := Sample.libs) Sample.invalid_world
            "pred.csv" "gs" "results.json") = Ok tt
  /\ existsb is_score_call
       (trace (score.main (L := Sample.libs) Sample.invalid_world
                 "pred.csv" "gs" "results.json")) = false.
Proof.
  destruct (@score_skips_invalid_submission Sample.libs
              Sample.invalid_world "pred.csv" "gs" "results.json"
              (Sample.json_dumps (PyDict Sample.invalid_record))
              Sample.invalid_record
              eq_refl eq_refl eq_refl eq_refl)
    as [res [Hrun [Hcalls _]]].
  split; [now rewrite Hrun | exact Hcalls].
Defined.

Lemma sample_conformant : conformant Sample.gold_table Sample.pred_table.
Proof.
  unfold conformant, Sample.gold_table, Sample.pred_table. simpl.
  split; [repeat constructor; simpl; intuition discriminate|].
  split; [intros x Hx; exact Hx|].
  split; [intros x Hx; exact Hx|].
  split; repeat constructor; unfold is_null; vm_compute; discriminate.
Qed.

(** C2: a run of the validator that ends normally has written a
    record; the validator joins the collected errors with newlines (the
    joined text is the errors in their order with one newline character
    between two neighbours) and records "INVALID" exactly when the joined
    text is non-empty, else "VALIDATED": a non-empty error among the
    collected ones gives "INVALID", no error gives "VALIDATED"; for a
    predictions table that conforms to the goldstandard, [validate]
    returns no error and the driver records and prints "VALIDATED". *)
Theorem validation_status_follows_joined_errors {L : Libs} {S : VtkSpec L}
    (w : world) (p g o : string) :
  (result (validate.main w p g o) = Ok tt ->
   exists v, records (validate.main w p g o) v)
  /\ (forall v, records (validate.main w p g o) v ->
     exists errors,
       collected w p g errors
       /\ v = PyDict
                [("validation_status",
                  PyStr (validate.status_of (join newline errors)));
                 ("validation_errors",
                  PyStr (validate.truncate (join newline errors)))]
       /\ (validate.status_of (join newline errors) = "INVALID"
           <-> join newline errors <> "")
       /\ (validate.status_of (join newline errors) = "VALIDATED"
           <-> join newline errors = "")
       /\ In (EvPrint (validate.status_of (join newline errors)))
             (trace (validate.main w p g o))
       /\ (forall e, In e errors -> e <> "" ->
           validate.status_of (join newline errors) = "INVALID")
       /\ (validate.status_of (join newline errors) = "VALIDATED"
           <-> errors = [] \/ errors = [""]))
  /\ (forall gold_file gold pred,
        str_contains "INVALID" p = false ->
        glob w g = [gold_file] ->
        read_csv_gold w gold_file = Ok gold ->
        read_csv_pred w p = Ok pred ->
        conformant gold pred ->
        result (validate.validate w gold_file p) = Ok []
        /\ (open_w w o = Ok tt ->
            result (validate.main w p g o) = Ok tt
            /\ records (validate.main w p g o)
                 (PyDict [("validation_status", PyStr "VALIDATED");
                          ("validation_errors", PyStr "")])
            /\ In (EvPrint "VALIDATED") (trace (validate.main w p g o))))
  /\ (join newline [] = ""
      /\ (forall x, join newline [x] = x)
      /\ (forall x y rest,
            join newline (x :: y :: rest)
            = (x ++ String (ascii_of_nat 10) (join newline (y :: rest)))%string)
      /\ (forall x y,
            join newline [x; y] = (x ++ String (ascii_of_nat 10) y)%string)).
Proof.
  split; [apply validate_main_records|].
  split; [|split].
  - intros v Hrec.
    destruct (records_validate_main_inv w p g o v Hrec)
      as (errors & Hcol & -> & before & Hrun).
    exists errors. split; [assumption|]. split; [reflexivity|].
    split; [apply status_of_invalid|]. split; [apply status_of_validated|].
    split; [rewrite Hrun, trace_pair, in_app_iff; right; simpl; tauto|].
    split.
    + intros e Hin Hne. apply status_of_invalid.
      now apply (join_nonempty errors e).
    + rewrite status_of_validated. split; [apply join_empty|].
      intros [-> | ->]; reflexivity.
  - intros gold_file gold pred Hs Hg Hgold Hpred Hconf.
    pose proof (conformant_checks_pass gold pred Hconf) as Hnone.
    split.
    + rewrite (validate_loaded w gold_file p gold pred Hgold Hpred).
      rewrite result_pair. now rewrite Hnone.
    + intros Hw. unfold records.
      rewrite (validate_main_loaded_run w p g o gold_file gold pred
                 Hs Hg Hgold Hpred Hw).
      cbv zeta. rewrite Hnone. simpl. tauto.
  - repeat split; reflexivity.
Qed.

Lemma validation_status_follows_joined_errors_witness :
  result (validate.validate (L := Sample.libs) Sample.fresh_world
            "gs/gold.csv" "pred.csv") = Ok []
  /\ In (EvPrint "VALIDATED")
       (trace (validate.main (L := Sample.libs) Sample.fresh_world
                 "pred.csv" "gs" "results.json")).
Proof.
  destruct (@validation_status_follows_joined_errors Sample.libs
              sample_vtk_spec Sample.fresh_world
              "pred.csv" "gs" "results.json") as [_ [_ [H _]]].
  destruct (H "gs/gold.csv" Sample.gold_table Sample.pred_table
              eq_refl eq_refl eq_refl eq_refl sample_conformant)
    as [Hv Hm].
  destruct (Hm eq_refl) as (_ & _ & Hp).
  split; [exact Hv | exact Hp].
Defined.

(** C3: when both tables load, [validate] runs the five checks in the
    order duplicate-key, missing-key, unknown-key, NaN, range, and
    returns their non-empty messages in that order.  A duplicated id, a
    goldstandard id without prediction, a prediction id outside the
    goldstandard, a null probability and a probability outside [0, 1]
    each put the message of their check in the result, and the status of
    the driver is then "INVALID". *)
Theorem validate_runs_five_checks_in_order {L : Libs} {S : VtkSpec L}
    (w : world) (gold_file p : string)
    (gold : list gold_row) (pred : list pred_row) :
  read_csv_gold w gold_file = Ok gold ->
  read_csv_pred w p = Ok pred ->
  let ids := map pred_id pred in
  let gold_ids := map gold_id gold in
  let ps := map probability pred in
  let errors := filter_none (checks gold pred) in
  validate.validate w gold_file p =
    ([EvReadCsv gold_file GoldstandardTable; EvReadCsv p PredictionTable;
      EvVtk CheckDuplicateKeys; EvVtk CheckMissingKeys;
      EvVtk CheckUnknownKeys; EvVtk CheckNanValues; EvVtk CheckValuesRange],
     Ok errors)
  /\ errors =
       filter_none
         [check_duplicate_keys ids; check_missing_keys gold_ids ids;
          check_unknown_keys gold_ids ids; check_nan_values ps;
          check_values_range ps 0%float 1%float]
  /\ ~ In "" errors
  /\ (~ NoDup ids -> In (check_duplicate_keys ids) errors)
  /\ (~ incl gold_ids ids -> In (check_missing_keys gold_ids ids) errors)
  /\ (~ incl ids gold_ids -> In (check_unknown_keys gold_ids ids) errors)
  /\ (Exists is_null ps -> In (check_nan_values ps) errors)
  /\ (Exists (outside 0%float 1%float) ps ->
      In (check_values_range ps 0%float 1%float) errors)
  /\ (errors <> [] ->
      validate.status_of (join newline errors) = "INVALID"
      /\ forall g o,
           str_contains "INVALID" p = false ->
           glob w g = [gold_file] ->
           open_w w o = Ok tt ->
           result (validate.main w p g o) = Ok tt
           /\ records (validate.main w p g o)
                (PyDict [("validation_status", PyStr "INVALID");
                         ("validation_errors",
                          PyStr (validate.truncate (join newline errors)))])
           /\ In (EvPrint "INVALID") (trace (validate.main w p g o))).
Proof.
  intros Hgold Hpred ids gold_ids ps errors.
  assert (Hin : forall c, In c (checks gold pred) -> c <> "" -> In c errors).
  { intros c Hc Hne. now apply filter_none_spec. }
  split; [exact (validate_loaded w gold_file p gold pred Hgold Hpred)|].
  split; [reflexivity|].
  split; [intros H; apply filter_none_spec in H; now destruct H|].
  split.
  { intros H. apply Hin; [simpl; tauto|].
    intros E. now apply H, duplicate_keys_spec. }
  split.
  { intros H. apply Hin; [simpl; tauto|].
    intros E. now apply H, missing_keys_spec. }
  split.
  { intros H. apply Hin; [simpl; tauto|].
    intros E. now apply H, unknown_keys_spec. }
  split.
  { intros H. apply Hin; [simpl; tauto|].
    intros E. apply nan_values_spec in E.
    apply Exists_exists in H. destruct H as (x & Hx & Hnull).
    rewrite Forall_forall in E. now apply (E x). }
  split.
  { intros H. apply Hin; [simpl; tauto|].
    now apply values_range_fail. }
  intros Hne.
  assert (Hst : validate.status_of (join newline errors) = "INVALID").
  { apply status_of_invalid.
    destruct errors as [|c rest] eqn:He; [congruence|].
    apply (join_nonempty (c :: rest) c); [now left|].
    assert (Hc : In c (filter_none (checks gold pred)))
      by (fold errors; rewrite He; now left).
    apply filter_none_spec in Hc. now destruct Hc. }
  split; [assumption|].
  intros g o Hs Hg Hw. unfold records.
  rewrite (validate_main_loaded_run w p g o gold_file gold pred
             Hs Hg Hgold Hpred Hw).
  cbv zeta. fold errors. unfold validation_record. rewrite Hst.
  simpl. tauto.
Qed.

Lemma validate_runs_five_checks_in_order_witness :
  In "Found duplicate id(s)."
     (filter_none (checks (L := Sample.libs)
                     Sample.gold_table Sample.pred_duplicated))
  /\ In (EvPrint "INVALID")
       (trace (validate.main (L := Sample.libs) Sample.fresh_world
                 "dup.csv" "gs" "results.json")).
Proof.
  destruct (@validate_runs_five_checks_in_order Sample.libs
              sample_vtk_spec Sample.fresh_world "gs/gold.csv" "dup.csv"
              Sample.gold_table Sample.pred_duplicated eq_refl eq_refl)
    as (_ & _ & _ & Hdup & _ & _ & _ & _ & Hstatus).
  split.
  - apply Hdup. intros Hnd. inversion Hnd as [|? ? Hnotin _].
    apply Hnotin. now left.
  - destruct Hstatus as [_ Hmain]; [vm_compute; discriminate|].
    destruct (Hmain "gs" "results.json" eq_refl eq_refl eq_refl)
      as (_ & _ & Hp).
    exact Hp.
Defined.





(** C6: the validator records the joined error text cut by [truncate]:
    a text of more than 500 characters becomes its first 496 characters
    followed by "...", 499 characters in all; a text of at most 500
    characters is recorded as it is. *)
Theorem validation_errors_truncated {L : Libs}
    (w : world) (p g o : string) (v : pyval) :
  records (validate.main w p g o) v ->
  exists errors,
    collected w p g errors
    /\ (exists status,
          v = PyDict
                [("validation_status", PyStr status);
                 ("validation_errors",
                  PyStr (validate.truncate (join newline errors)))])
    /\ (500 < String.length (join newline errors) ->
        validate.truncate (join newline errors)
          = (slice_to 496 (join newline errors) ++ "...")%string
        /\ String.length (slice_to 496 (join newline errors)) = 496
        /\ String.prefix (slice_to 496 (join newline errors))
                         (join newline errors) = true
        /\ String.length (validate.truncate (join newline errors)) = 499)
    /\ (String.length (join newline errors) <= 500 ->
        validate.truncate (join newline errors) = join newline errors).
Proof.
  intros Hrec.
  destruct (records_validate_main_inv w p g o v Hrec)
    as (errors & Hcol & -> & _).
  exists errors. split; [assumption|].
  split; [eexists; reflexivity|].
  unfold validate.truncate. split; intros Hlen.
  - assert (Hlt : Nat.ltb 500 (String.length (join newline errors)) = true)
      by now apply Nat.ltb_lt.
    rewrite Hlt.
    assert (H496 : String.length (slice_to 496 (join newline errors)) = 496)
      by (apply slice_to_length; lia).
    split; [reflexivity|]. split; [assumption|].
    split; [apply slice_to_prefix|].
    rewrite length_append, H496. reflexivity.
  - assert (Hge : Nat.ltb 500 (String.length (join newline errors)) = false)
      by (apply Nat.ltb_ge; lia).
    now rewrite Hge.
Qed.

Lemma validation_errors_truncated_witness :
  String.length (validate.truncate Sample.long_text) = 499.
Proof.
  destruct (@validation_errors_truncated Sample.libs Sample.fresh_world
              "INVALID_long.txt" "gs" "results.json"
              (validation_record Sample.long_text))
    as (errors & Hcol & _ & Hlong & _).
  - unfold records. vm_compute. do 2 right. left. reflexivity.
  - destruct Hcol as (text & Htext & ->).
    injection Htext as <-.
    apply Hlong. apply Nat.ltb_lt. vm_compute. reflexivity.
Defined.

(** C7: when the predictions file does not load and pandas raises a
    ValueError, [validate] returns one error, which names the expected
    columns, without running any of the five checks, and the driver
    records and prints "INVALID". *)
Theorem validate_schema_error_short_circuits {L : Libs}
    (w : world) (gold_file p : string) (gold : list gold_row) (e : exn) :
  read_csv_gold w gold_file = Ok gold ->
  read_csv_pred w p = Raise e ->
  isinstance e [ValueError] = true ->
  let message :=
    ("Invalid column names and/or types: " ++ exn_str e ++ ". Expecting: "
     ++ "{'id': <class 'str'>, 'probability': <class 'float'>}" ++ ".")%string in
  validate.validate w gold_file p =
    ([EvReadCsv gold_file GoldstandardTable; EvReadCsv p PredictionTable],
     Ok [message])
  /\ existsb is_check_call (trace (validate.validate w gold_file p)) = false
  /\ validate.status_of (join newline [message]) = "INVALID"
  /\ forall g o,
       str_contains "INVALID" p = false ->
       glob w g = [gold_file] ->
       open_w w o = Ok tt ->
       let res :=
         PyDict [("validation_status", PyStr "INVALID");
                 ("validation_errors", PyStr (validate.truncate message))] in
       validate.main w p g o =
         ([EvGlob g; EvReadCsv gold_file GoldstandardTable;
           EvReadCsv p PredictionTable;
           EvOpen o ModeW; EvJsonDumps res; EvWrite o (json_dumps res);
           EvPrint "INVALID"], Ok tt).
Proof.
  intros Hgold Hpred Hi message.
  pose proof (validate_schema_error w gold_file p gold e Hgold Hpred) as Hv.
  rewrite Hi in Hv. change (schema_error e) with message in Hv.
  split; [exact Hv|]. rewrite Hv.
  split; [reflexivity|].
  split; [reflexivity|].
  intros g o Hs Hg Hw res.
  rewrite (validate_main_checks_run w p g o gold_file Hs Hg), Hv.
  rewrite result_pair. cbv zeta. unfold closing_run. rewrite Hw.
  reflexivity.
Qed.

Lemma validate_schema_error_short_circuits_witness :
  existsb is_check_call
    (trace (validate.validate (L := Sample.libs) Sample.fresh_world
              "gs/gold.csv" "schema.csv")) = false
  /\ result (validate.main (L := Sample.libs) Sample.fresh_world
               "schema.csv" "gs" "results.json") = Ok tt.
Proof.
  destruct (@validate_schema_error_short_circuits Sample.libs
              Sample.fresh_world "gs/gold.csv" "schema.csv"
              Sample.gold_table (Sample.missing_column "probability")
              eq_refl eq_refl eq_refl)
    as (_ & Hchecks & _ & Hmain).
  split; [exact Hchecks|].
  now rewrite (Hmain "gs" "results.json" eq_refl eq_refl eq_refl).
Defined.



(** C9: when the path of the predictions file contains "INVALID", the
    validator looks up no goldstandard file, loads no table and runs no
    check; the text of the file is the one error, and its status and its
    truncation are those of any joined error text. *)
Theorem validate_main_sentinel_uses_file_text {L : Libs}
    (w : world) (p g o : string) :
  str_contains "INVALID" p = true ->
  existsb is_validation_call (trace (validate.main w p g o)) = false
  /\ forall text,
       open_r w p = Ok text ->
       collected w p g [text]
       /\ join newline [text] = text
       /\ (open_w w o = Ok tt ->
           let res :=
             PyDict [("validation_status", PyStr (validate.status_of text));
                     ("validation_errors", PyStr (validate.truncate text))] in
           validate.main w p g o =
             ([EvOpen p ModeR; EvOpen o ModeW; EvJsonDumps res;
               EvWrite o (json_dumps res);
               EvPrint (validate.status_of text)], Ok tt)).
Proof.
  intros Hs. pose proof (validate_main_sentinel_run w p g o Hs) as Hrun.
  split.
  - rewrite Hrun. unfold closing_run.
    destruct (open_r w p); [|reflexivity].
    destruct (open_w w o); reflexivity.
  - intros text Hr. rewrite Hr in Hrun.
    split; [unfold collected; rewrite Hs; eauto|].
    split; [reflexivity|].
    intros Hw res. rewrite Hrun. unfold closing_run. rewrite Hw. reflexivity.
Qed.

Lemma validate_main_sentinel_uses_file_text_witness :
  existsb is_validation_call
    (trace (validate.main (L := Sample.libs) Sample.fresh_world
              "INVALID_predictions.txt" "gs" "results.json")) = false
  /\ result (validate.main (L := Sample.libs) Sample.fresh_world
               "INVALID_predictions.txt" "gs" "results.json") = Ok tt.
Proof.
  destruct (@validate_main_sentinel_uses_file_text Sample.libs
              Sample.fresh_world "INVALID_predictions.txt" "gs"
              "results.json" eq_refl)
    as (Hcalls & Htext).
  split; [exact Hcalls|].
  destruct (Htext "Submission archive could not be unpacked." eq_refl)
    as (_ & _ & Hmain).
  now rewrite (Hmain eq_refl).
Defined.

(** C10: on a results record whose validation_status is "INVALID" the
    scorer does not look up the goldstandard folder.  Two runs on file
    systems that agree on the results file, whatever the folder argument
    and whatever the folder holds, are the same run: same calls, same
    record, same printed status, same outcome; and the run completes when
    the results file can be written. *)
Theorem score_invalid_ignores_goldstandard_folder {L : Libs}
    (w1 w2 : world) (p g1 g2 o text : string) (d : dict) :
  open_r w1 o = Ok text ->
  open_r w2 o = Ok text ->
  open_w w1 o = open_w w2 o ->
  json_loads text = Ok (PyDict d) ->
  dict_get "validation_status" d = Some (PyStr "INVALID") ->
  score.main w1 p g1 o = score.main w2 p g2 o
  /\ existsb is_glob_call (trace (score.main w1 p g1 o)) = false
  /\ existsb is_score_call (trace (score.main w1 p g1 o)) = false
  /\ (open_w w1 o = Ok tt -> result (score.main w1 p g1 o) = Ok tt).
Proof.
  intros Hr1 Hr2 Hw Hj Hs.
  assert (Hv : py_eq_str (get_or_none "validation_status" d) "INVALID" = true)
    by (unfold get_or_none; now rewrite Hs).
  pose proof (main_invalid_run w1 p g1 o d
                (load_results_parsed w1 o text _ Hr1 Hj) Hv) as H1.
  pose proof (main_invalid_run w2 p g2 o d
                (load_results_parsed w2 o text _ Hr2 Hj) Hv) as H2.
  cbv zeta in H1, H2. rewrite <- Hw in H2.
  split; [congruence|]. rewrite H1.
  destruct (open_w w1 o) as [[]|e]; repeat split; try reflexivity.
  discriminate.
Qed.

Lemma score_invalid_ignores_goldstandard_folder_witness :
  score.main (L := Sample.libs) Sample.invalid_world
    "pred.csv" "gs" "results.json"
  = score.main (L := Sample.libs) Sample.invalid_world
      "pred.csv" "two" "results.json"
  /\ result (score.main (L := Sample.libs) Sample.invalid_world
               "pred.csv" "two" "results.json") = Ok tt.
Proof.
  destruct (@score_invalid_ignores_goldstandard_folder Sample.libs
              Sample.invalid_world Sample.invalid_world
              "pred.csv" "two" "gs" "results.json"
              (Sample.json_dumps (PyDict Sample.invalid_record))
              Sample.invalid_record
              eq_refl eq_refl eq_refl eq_refl eq_refl)
    as [Hsame [_ [_ Hdone]]].
  split; [symmetry; exact Hsame | exact (Hdone eq_refl)].
Defined.

(** * Further properties *)

(** ** The truncation and the record of the validator *)

Lemma truncate_length (s : string) :
  String.length (validate.truncate s) <= 500.
Proof.
  unfold validate.truncate.
  destruct (Nat.ltb 500 (String.length s)) eqn:E.
  - apply Nat.ltb_lt in E.
    rewrite length_append, slice_to_length by lia. simpl. lia.
  - now apply Nat.ltb_ge in E.
Qed.

Lemma truncate_empty (s : string) : validate.truncate s = "" <-> s = "".
Proof.
  unfold validate.truncate.
  destruct (Nat.ltb 500 (String.length s)) eqn:E; [|tauto].
  apply Nat.ltb_lt in E. split.
  - intros H. apply (f_equal String.length) in H.
    rewrite length_append, slice_to_length in H by lia. discriminate.
  - intros ->. simpl in E. lia.
Qed.

(** X1: the text kept by the validator never exceeds 500 characters, a
    text that is cut has 499 of them, and cutting twice is cutting
    once. *)
Theorem truncate_bounded_idempotent (s : string) :
  String.length (validate.truncate s) <= 500
  /\ (validate.truncate s <> s -> String.length (validate.truncate s) = 499)
  /\ validate.truncate (validate.truncate s) = validate.truncate s.
Proof.
  split; [apply truncate_length|]. split.
  - unfold validate.truncate.
    destruct (Nat.ltb 500 (String.length s)) eqn:E; [|congruence].
    apply Nat.ltb_lt in E. intros _.
    rewrite length_append, slice_to_length by lia. reflexivity.
  - pose proof (truncate_length s) as Hlen.
    unfold validate.truncate at 1.
    destruct (Nat.ltb 500 (String.length (validate.truncate s))) eqn:E;
      [|reflexivity].
    apply Nat.ltb_lt in E. lia.
Qed.

(** X2: every record the validator writes has the two validation fields
    and no other; the status is "INVALID" or "VALIDATED", it is
    "VALIDATED" exactly when the recorded error text is empty, the
    recorded text has at most 500 characters, and the status printed is
    the status recorded. *)
Theorem validation_record_consistent {L : Libs}
    (w : world) (p g o : string) (v : pyval) :
  records (validate.main w p g o) v ->
  exists status errors : string,
    v = PyDict [("validation_status", PyStr status);
                ("validation_errors", PyStr errors)]
    /\ (status = "INVALID" \/ status = "VALIDATED")
    /\ (status = "VALIDATED" <-> errors = "")
    /\ String.length errors <= 500
    /\ In (EvPrint status) (trace (validate.main w p g o)).
Proof.
  intros Hrec.
  destruct (records_validate_main_inv w p g o v Hrec)
    as (errs & _ & -> & before & Hrun).
  do 2 eexists. split; [reflexivity|].
  split.
  { unfold validate.status_of. destruct (truthy _); auto. }
  split; [now rewrite status_of_validated, truncate_empty|].
  split; [apply truncate_length|].
  rewrite Hrun, trace_pair, in_app_iff. right. simpl. tauto.
Qed.

Lemma validation_record_consistent_witness :
  exists status errors : string,
    validation_record Sample.long_text
      = PyDict [("validation_status", PyStr status);
                ("validation_errors", PyStr errors)]
    /\ String.length errors <= 500.
Proof.
  destruct (@validation_record_consistent Sample.libs Sample.fresh_world
              "INVALID_long.txt" "gs" "results.json"
              (validation_record Sample.long_text))
    as (status & errors & Hv & _ & _ & Hlen & _).
  - unfold records. vm_compute. do 2 right. left. reflexivity.
  - exists status, errors. split; [exact Hv | exact Hlen].
Defined.

(** ** What [validate] returns *)

(** X3: whatever [validate] returns, no error in it is empty and there are
    at most five; so the joined text is empty, and the status of the
    driver "VALIDATED", exactly when [validate] returned no error. *)
Theorem validate_returns_nonempty_messages {L : Libs}
    (w : world) (gold_file p : string) (errors : list string) :
  result (validate.validate w gold_file p) = Ok errors ->
  ~ In "" errors
  /\ List.length errors <= 5
  /\ (join newline errors = "" <-> errors = [])
  /\ (validate.status_of (join newline errors) = "VALIDATED"
      <-> errors = []).
Proof.
  intros Hv.
  assert (Hne : ~ In "" errors /\ List.length errors <= 5).
  { rewrite validate_result in Hv.
    destruct (read_csv_gold w gold_file) as [gold|e]; [|discriminate].
    destruct (read_csv_pred w p) as [pred|e].
    - assert (errors = filter_none (checks gold pred)) by congruence.
      subst errors. split.
      + intros H. apply filter_none_spec in H. now destruct H.
      + unfold filter_none.
        etransitivity; [apply filter_length_le|]. simpl. lia.
    - destruct (isinstance e [ValueError]); [|discriminate].
      assert (errors = [schema_error e]) by congruence.
      subst errors. split; [|simpl; lia].
      unfold schema_error. simpl. intros [H|[]]. discriminate. }
  destruct Hne as [Hne Hlen].
  assert (Hjoin : join newline errors = "" <-> errors = []).
  { split; [|intros ->; reflexivity].
    intros Hj. destruct (join_empty errors Hj) as [H|H]; [assumption|].
    subst errors. exfalso. apply Hne. now left. }
  split; [assumption|]. split; [assumption|]. split; [assumption|].
  now rewrite status_of_validated.
Qed.

Lemma validate_returns_nonempty_messages_witness :
  ~ In "" ["Found duplicate id(s)."]
  /\ validate.status_of (join newline ["Found duplicate id(s)."])
     <> "VALIDATED".
Proof.
  destruct (@validate_returns_nonempty_messages Sample.libs
              Sample.fresh_world "gs/gold.csv" "dup.csv"
              ["Found duplicate id(s)."] eq_refl)
    as (Hne & _ & _ & Hst).
  split; [exact Hne|].
  intros H. apply Hst in H. discriminate.
Defined.

(** ** The sentinel in the path of the predictions file *)

Lemma prefix_app_iff (n s : string) :
  String.prefix n s = true <-> exists b, s = (n ++ b)%string.
Proof.
  revert s. induction n as [|c n IH]; intros s.
  - split; [intros _; now exists s | intros _; now destruct s].
  - destruct s as [|c' s]; simpl.
    + split; [discriminate | intros [b H]; discriminate].
    + destruct (ascii_dec c c') as [->|Hne].
      * rewrite IH. split; intros [b H]; exists b; congruence.
      * split; [discriminate | intros [b H]; congruence].
Qed.

Lemma str_contains_unfold (n s : string) :
  str_contains n s =
    if String.prefix n s then true
    else match s with
         | EmptyString => false
         | String _ s' => str_contains n s'
         end.
Proof. destruct s; reflexivity. Qed.

Lemma str_contains_iff (n s : string) :
  str_contains n s = true <-> exists a b, s = (a ++ n ++ b)%string.
Proof.
  split.
  - induction s as [|c s IH]; rewrite str_contains_unfold;
      destruct (String.prefix n _) eqn:E.
    + intros _. apply prefix_app_iff in E. destruct E as [b ->].
      now exists "", b.
    + discriminate.
    + intros _. apply prefix_app_iff in E. destruct E as [b ->].
      now exists "", b.
    + intros H. destruct (IH H) as (a & b & ->). now exists (String c a), b.
  - intros (a & b & ->). induction a as [|c a IH].
    + rewrite str_contains_unfold.
      assert (E : String.prefix n ("" ++ n ++ b) = true)
        by (apply prefix_app_iff; now exists b).
      now rewrite E.
    + rewrite str_contains_unfold.
      destruct (String.prefix n _); [reflexivity | exact IH].
Qed.

(** X4: the validator takes the sentinel branch exactly for the paths that
    contain "INVALID" somewhere, in a folder name as well as in the file
    name: on such a path it looks up no goldstandard file, loads no table
    and runs no check, and on any other path its first call is the lookup
    of the goldstandard folder. *)
Theorem sentinel_is_substring_test {L : Libs} (w : world) (p g o : string) :
  (forall a b,
     existsb is_validation_call
       (trace (validate.main w (a ++ "INVALID" ++ b) g o)) = false)
  /\ ((forall a b, p <> (a ++ "INVALID" ++ b)%string) ->
      exists rest, trace (validate.main w p g o) = EvGlob g :: rest).
Proof.
  split.
  - intros a b.
    assert (Hs : str_contains "INVALID" (a ++ "INVALID" ++ b) = true)
      by (apply str_contains_iff; now exists a, b).
    rewrite (validate_main_sentinel_run w _ g o Hs). unfold closing_run.
    destruct (open_r w _); [|reflexivity].
    destruct (open_w w o); reflexivity.
  - intros Hp.
    destruct (str_contains "INVALID" p) eqn:Hs.
    { apply str_contains_iff in Hs. destruct Hs as (a & b & ->).
      now destruct (Hp a b). }
    destruct (glob w g) as [|gold_file [|f' fs]] eqn:Hg.
    1,3: destruct (validate_main_bad_folder w p g o Hs) as [e [_ Hrun]];
         [rewrite Hg; simpl; lia|];
         rewrite Hrun; now exists [].
    rewrite (validate_main_checks_run w p g o gold_file Hs Hg).
    destruct (result (validate.validate w gold_file p));
      eexists; reflexivity.
Qed.

(** X5: on the sentinel branch the status depends on the text of the file
    alone: an empty file is recorded and printed as "VALIDATED", with an
    empty error text, and any other text as "INVALID". *)
Theorem sentinel_status_follows_text {L : Libs}
    (w : world) (p g o text : string) :
  str_contains "INVALID" p = true ->
  open_r w p = Ok text ->
  open_w w o = Ok tt ->
  (text = "" ->
   validate.main w p g o =
     ([EvOpen p ModeR; EvOpen o ModeW;
       EvJsonDumps (PyDict [("validation_status", PyStr "VALIDATED");
                            ("validation_errors", PyStr "")]);
       EvWrite o (json_dumps
                    (PyDict [("validation_status", PyStr "VALIDATED");
                             ("validation_errors", PyStr "")]));
       EvPrint "VALIDATED"], Ok tt))
  /\ (In (EvPrint "VALIDATED") (trace (validate.main w p g o)) <-> text = "")
  /\ (In (EvPrint "INVALID") (trace (validate.main w p g o)) <-> text <> "").
Proof.
  intros Hs Hr Hw.
  pose proof (validate_main_sentinel_run w p g o Hs) as Hrun.
  rewrite Hr in Hrun. unfold closing_run in Hrun. rewrite Hw in Hrun.
  rewrite trace_pair, result_pair in Hrun.
  split; [intros ->; exact Hrun|].
  rewrite Hrun, trace_pair.
  destruct (String.eqb_spec text "") as [->|Hne].
  - simpl. split; split; intros H; try reflexivity; try tauto;
      destruct H as [H|[H|[H|[H|[H|[]]]]]]; discriminate.
  - assert (Hst : validate.status_of text = "INVALID")
      by now apply status_of_invalid.
    unfold validation_record. rewrite Hst. simpl.
    split; split; intros H; try assumption; try contradiction; try tauto;
      destruct H as [H|[H|[H|[H|[H|[]]]]]]; discriminate.
Qed.

Lemma sentinel_status_follows_text_witness :
  In (EvPrint "VALIDATED")
     (trace (validate.main (L := Sample.libs) Cases.empty_sentinel_world
               "INVALID_empty.txt" "gs" "results.json")).
Proof.
  destruct (@sentinel_status_follows_text Sample.libs
              Cases.empty_sentinel_world "INVALID_empty.txt" "gs"
              "results.json" "" eq_refl eq_refl eq_refl)
    as (_ & Hv & _).
  apply Hv. reflexivity.
Defined.

(** ** What the validator reads *)

Lemma validate_agree {L : Libs} (w1 w2 : world) (gold_file p : string) :
  read_csv_gold w1 gold_file = read_csv_gold w2 gold_file ->
  read_csv_pred w1 p = read_csv_pred w2 p ->
  validate.validate w1 gold_file p = validate.validate w2 gold_file p.
Proof.
  intros Hg Hp. unfold validate.validate. now rewrite Hg, Hp.
Qed.

(** X6: a run of the validator is determined by the listing of the
    goldstandard folder, the two tables, the text of the predictions file
    and whether the results file can be written: it reads no other file,
    in particular not the results file of an earlier run, whose fields it
    replaces instead of merging. *)
Theorem validate_main_ignores_prior_results {L : Libs}
    (w1 w2 : world) (p g o : string) :
  glob w1 g = glob w2 g ->
  (forall file, read_csv_gold w1 file = read_csv_gold w2 file) ->
  read_csv_pred w1 p = read_csv_pred w2 p ->
  open_r w1 p = open_r w2 p ->
  open_w w1 o = open_w w2 o ->
  validate.main w1 p g o = validate.main w2 p g o.
Proof.
  intros Hglob Hgold Hpred Hr Hw.
  destruct (str_contains "INVALID" p) eqn:Hs.
  - rewrite !(validate_main_sentinel_run _ p g o Hs).
    unfold closing_run. now rewrite Hr, Hw.
  - assert (Hx : utils.extract_gs_file w1 g = utils.extract_gs_file w2 g)
      by (rewrite !extract_gs_file_run, Hglob; reflexivity).
    destruct (glob w2 g) as [|gold_file [|f' fs]] eqn:Hg.
    1,3: destruct (validate_main_bad_folder w1 p g o Hs) as (e1 & He1 & ->);
         [rewrite Hglob; simpl; lia|];
         destruct (validate_main_bad_folder w2 p g o Hs) as (e2 & He2 & ->);
         [rewrite Hg; simpl; lia|];
         rewrite Hx in He1; congruence.
    rewrite (validate_main_checks_run w1 p g o gold_file Hs)
      by now rewrite Hglob.
    rewrite (validate_main_checks_run w2 p g o gold_file Hs Hg).
    rewrite (validate_agree w1 w2 gold_file p (Hgold gold_file) Hpred).
    unfold closing_run. now rewrite Hw.
Qed.

Lemma validate_main_ignores_prior_results_witness :
  validate.main (L := Sample.libs) Sample.fresh_world
    "pred.csv" "gs" "results.json"
  = validate.main (L := Sample.libs) Sample.validated_world
      "pred.csv" "gs" "results.json".
Proof.
  exact (@validate_main_ignores_prior_results Sample.libs
           Sample.fresh_world Sample.validated_world
           "pred.csv" "gs" "results.json"
           eq_refl (fun _ => eq_refl) eq_refl eq_refl eq_refl).
Defined.

(** ** When the results file is written *)





Lemma writes_of_aborted_run (m : M unit) (before : list event) (e : exn) :
  m = (before, Raise e) ->
  filter is_write before = [] ->
  match result m with
  | Ok _ => False
  | Raise _ => filter is_write (trace m) = []
  end.
Proof. now intros -> Hb. Qed.



(** ** The warning of the scorer *)

Lemma invalid_is_truthy (v : pyval) :
  py_eq_str v "INVALID" = true -> truthy v = true.
Proof.
  destruct v; simpl; try discriminate.
  intros H. apply String.eqb_eq in H. now subst.
Qed.

Lemma closing_run_no_warning {L : Libs} (w : world) (o : string)
    (res : pyval) (status : string) :
  status <> warning ->
  ~ In (EvPrint warning) (trace (closing_run w o res status)).
Proof.
  intros Hne. unfold closing_run. destruct (open_w w o); simpl.
  - intros [H|[H|[H|[H|[]]]]]; try discriminate. inversion H. congruence.
  - intros [H|[]]. discriminate.
Qed.

Lemma score_no_warning {L : Libs} (w : world) (gold_file p : string) :
  ~ In (EvPrint warning) (trace (score.score w gold_file p)).
Proof.
  intros H. pose proof (score_calls w gold_file p) as Hc.
  rewrite forallb_forall in Hc. now apply Hc in H.
Qed.

(** After a record is loaded: the warning or not, then no warning. *)
Lemma main_trace_after_load {L : Libs} (w : world) (p g o : string)
    (d : dict) :
  result (score.load_results w o) = Ok (PyDict d) ->
  exists rest,
    trace (score.main w p g o) = [EvOpen o ModeR] ++ warning_events d ++ rest
    /\ ~ In (EvPrint warning) rest.
Proof.
  intros Hl.
  destruct (py_eq_str (get_or_none "validation_status" d) "INVALID") eqn:Hs.
  - pose proof (main_invalid_run w p g o d Hl Hs) as Hrun. cbv zeta in Hrun.
    unfold warning_events. rewrite (invalid_is_truthy _ Hs).
    exists (trace (closing_run w o
              (PyDict (dict_update d
                 [("score_status", PyStr "INVALID");
                  ("score_errors",
                   PyStr "Submission could not be evaluated due to validation errors.")]))
              "INVALID")).
    split; [|apply closing_run_no_warning; discriminate].
    rewrite Hrun. unfold closing_run. now destruct (open_w w o).
  - destruct (glob w g) as [|gold_file [|f' fs]] eqn:Hg.
    1,3: destruct (main_bad_folder w p g o d Hl Hs) as (e & _ & ->);
         [rewrite Hg; simpl; lia|];
         exists [EvGlob g]; split; [reflexivity|];
         intros [H|[]]; discriminate.
    pose proof (main_scoring_run w p g o gold_file d Hl Hs Hg) as Hrun.
    cbv zeta in Hrun. rewrite Hrun.
    pose proof (score_no_warning w gold_file p) as Hsc.
    destruct (result (score.score w gold_file p)) as [scores|e].
    + eexists. rewrite trace_pair, <- !app_assoc. split; [reflexivity|].
      rewrite !in_app_iff. intros [H|[H|H]]; [|contradiction|].
      * destruct H as [H|[]]. discriminate.
      * revert H. apply closing_run_no_warning. discriminate.
    + destruct (isinstance e [ValueError]).
      * eexists. rewrite trace_pair, <- !app_assoc. split; [reflexivity|].
        rewrite !in_app_iff. intros [H|[H|[H|H]]]; [|contradiction| |].
        -- destruct H as [H|[]]. discriminate.
        -- destruct H as [H|[]]. discriminate.
        -- revert H. apply closing_run_no_warning. discriminate.
      * eexists. rewrite trace_pair. split; [reflexivity|].
        rewrite !in_app_iff. intros [H|H]; [|contradiction].
        destruct H as [H|[]]. discriminate.
Qed.

(** X9: the scorer prints its warning exactly when it loaded a record
    (from the file, or the blank one) whose validation_status is missing
    or has no truth value: empty, null, zero; it prints none on a status
    such as "VALIDATED" or "INVALID", nor when the load aborts the run. *)
Theorem warning_printed_iff_no_validation_status {L : Libs}
    (w : world) (p g o : string) :
  In (EvPrint warning) (trace (score.main w p g o))
  <-> exists d,
        result (score.load_results w o) = Ok (PyDict d)
        /\ truthy (get_or_none "validation_status" d) = false.
Proof.
  destruct (result (score.load_results w o)) as [res|e] eqn:Hl.
  2:{ rewrite (main_load_raises w p g o e Hl). simpl. split.
      - intros [H|[]]. discriminate.
      - intros (d & H & _). discriminate. }
  destruct res as [| | | | | |d];
    try (rewrite (main_not_a_dict w p g o _ Hl) by discriminate; simpl;
         split; [intros [H|[]]; discriminate
                |intros (d & H & _); discriminate]).
  destruct (main_trace_after_load w p g o d Hl) as (rest & -> & Hrest).
  rewrite !in_app_iff. unfold warning_events. split.
  - intros [H|[H|H]]; [destruct H as [H|[]]; discriminate| |contradiction].
    exists d. split; [reflexivity|].
    destruct (truthy _); [destruct H | reflexivity].
  - intros (d' & Hd & Ht). inversion Hd; subst d'. rewrite Ht.
    right. left. now left.
Qed.

(** ** The record of a successful scoring *)

(** X10: when [score] returns, the scorer records score_status "SCORED",
    an empty score_errors and the two metrics that [score] returned,
    which replace metrics of an earlier run; every other field of the
    loaded record is kept, and "SCORED" is printed last. *)
Theorem score_main_success_record {L : Libs}
    (w : world) (p g o gold_file : string) (d scores : dict) :
  result (score.load_results w o) = Ok (PyDict d) ->
  py_eq_str (get_or_none "validation_status" d) "INVALID" = false ->
  glob w g = [gold_file] ->
  result (score.score w gold_file p) = Ok scores ->
  open_w w o = Ok tt ->
  exists (roc area : float) (res : dict),
    scores = [("auc_roc", PyFloat roc); ("auprc", PyFloat area)]
    /\ score.main w p g o =
         ([EvOpen o ModeR] ++ warning_events d ++ [EvGlob g]
          ++ trace (score.score w gold_file p)
          ++ [EvOpen o ModeW; EvJsonDumps (PyDict res);
              EvWrite o (json_dumps (PyDict res)); EvPrint "SCORED"],
          Ok tt)
    /\ dict_get "score_status" res = Some (PyStr "SCORED")
    /\ dict_get "score_errors" res = Some (PyStr "")
    /\ dict_get "auc_roc" res = Some (PyFloat roc)
    /\ dict_get "auprc" res = Some (PyFloat area)
    /\ (forall k,
          ~ In k ["score_status"; "score_errors"; "auc_roc"; "auprc"] ->
          dict_get k res = dict_get k d).
Proof.
  intros Hl Hs Hg Hsc Hw.
  destruct (score_returns w gold_file p scores Hsc) as (roc & area & ->).
  pose proof (main_scoring_run w p g o gold_file d Hl Hs Hg) as Hrun.
  cbv zeta in Hrun. rewrite Hsc in Hrun. unfold closing_run in Hrun.
  rewrite Hw, trace_pair, result_pair in Hrun.
  assert (Hnd : NoDup (dict_keys
                  (dict_update [("score_status", PyStr "SCORED");
                                ("score_errors", PyStr "")]
                     [("auc_roc", PyFloat roc); ("auprc", PyFloat area)])))
    by (repeat constructor; simpl; intuition discriminate).
  exists roc, area. eexists. split; [reflexivity|].
  split; [rewrite Hrun; now rewrite <- !app_assoc|].
  split; [now apply dict_update_overwrites|].
  split; [now apply dict_update_overwrites|].
  split; [now apply dict_update_overwrites|].
  split; [now apply dict_update_overwrites|].
  intros k Hk. apply dict_update_retains. simpl.
  destruct (String.eqb_spec k "score_status"); [subst; simpl in Hk; tauto|].
  destruct (String.eqb_spec k "score_errors"); [subst; simpl in Hk; tauto|].
  destruct (String.eqb_spec k "auc_roc"); [subst; simpl in Hk; tauto|].
  destruct (String.eqb_spec k "auprc"); [subst; simpl in Hk; tauto|].
  reflexivity.
Qed.

Lemma score_main_success_record_witness :
  In (EvPrint "SCORED")
     (trace (score.main (L := Sample.libs) Sample.validated_world
               "pred.csv" "gs" "results.json")).
Proof.
  destruct (@score_main_success_record Sample.libs Sample.validated_world
              "pred.csv" "gs" "results.json" "gs/gold.csv"
              Sample.validated_record
              [("auc_roc", PyFloat 1%float); ("auprc", PyFloat 1%float)]
              eq_refl eq_refl eq_refl eq_refl eq_refl)
    as (roc & area & res & _ & Hrun & _).
  rewrite Hrun, trace_pair, !in_app_iff.
  do 4 right. simpl. tauto.
Defined.

Lemma no_results_blank {L : Libs} (w : world) (o : string) :
  no_results w o ->
  result (score.load_results w o) = Ok (PyDict score.blank_record).
Proof.
  intros H. apply load_results_iff. unfold no_results, loaded_or_blank in *.
  destruct (open_r w o) as [text|e]; [|now split].
  destruct (json_loads text); [contradiction | now split].
Qed.

(** X11: with no results file, or one whose text is no JSON, the scorer
    starts from the blank record: it prints the warning and scores all
    the same, and on success the record it writes has empty validation
    fields beside score_status "SCORED" and the metrics. *)
Theorem score_without_validation_results {L : Libs}
    (w : world) (p g o gold_file : string) (roc area : float) :
  no_results w o ->
  glob w g = [gold_file] ->
  result (score.score w gold_file p)
    = Ok [("auc_roc", PyFloat roc); ("auprc", PyFloat area)] ->
  open_w w o = Ok tt ->
  let res :=
    PyDict [("validation_status", PyStr ""); ("validation_errors", PyStr "");
            ("score_status", PyStr "SCORED"); ("score_errors", PyStr "");
            ("auc_roc", PyFloat roc); ("auprc", PyFloat area)] in
  score.main w p g o =
    ([EvOpen o ModeR; EvPrint warning; EvGlob g]
     ++ trace (score.score w gold_file p)
     ++ [EvOpen o ModeW; EvJsonDumps res; EvWrite o (json_dumps res);
         EvPrint "SCORED"],
     Ok tt).
Proof.
  intros Hno Hg Hsc Hw res.
  pose proof (main_scoring_run w p g o gold_file score.blank_record
                (no_results_blank w o Hno) eq_refl Hg) as Hrun.
  cbv zeta in Hrun. rewrite Hsc in Hrun. unfold closing_run in Hrun.
  rewrite Hw, trace_pair, result_pair in Hrun.
  rewrite Hrun, <- !app_assoc. reflexivity.
Qed.

Lemma score_without_validation_results_witness :
  In (EvPrint warning)
     (trace (score.main (L := Sample.libs) Sample.fresh_world
               "pred.csv" "gs" "results.json"))
  /\ result (score.main (L := Sample.libs) Sample.fresh_world
               "pred.csv" "gs" "results.json") = Ok tt.
Proof.
  pose proof (@score_without_validation_results Sample.libs
                Sample.fresh_world "pred.csv" "gs" "results.json"
                "gs/gold.csv" 1%float 1%float
                eq_refl eq_refl eq_refl eq_refl) as Hrun.
  cbv zeta in Hrun. rewrite Hrun. split; [|reflexivity].
  rewrite trace_pair. simpl. tauto.
Defined.

(** ** A results file that holds no JSON object *)

(** X12: when the results file holds JSON that is no object (a list, a
    string, a number, null), the scorer aborts with an AttributeError at
    its first [res.get]: it looks up no folder, scores nothing and writes
    nothing. *)
Theorem results_not_an_object_aborts {L : Libs}
    (w : world) (p g o text : string) (v : pyval) :
  open_r w o = Ok text ->
  json_loads text = Ok v ->
  (forall d, v <> PyDict d) ->
  score.main w p g o =
    ([EvOpen o ModeR],
     Raise (mkExn AttributeError
              ("'" ++ type_name v ++ "' object has no attribute 'get'")%string))
  /\ type_name v <> "dict".
Proof.
  intros Hr Hj Hv. split.
  - apply main_not_a_dict; [|assumption].
    now apply (load_results_parsed w o text).
  - destruct v; try discriminate. now destruct (Hv d).
Qed.

Lemma results_not_an_object_aborts_witness :
  score.main (L := Sample.libs) Cases.list_results_world
    "pred.csv" "gs" "results.json"
  = ([EvOpen "results.json" ModeR],
     Raise (mkExn AttributeError "'list' object has no attribute 'get'")).
Proof.
  destruct (@results_not_an_object_aborts Sample.libs
              Cases.list_results_world "pred.csv" "gs" "results.json"
              "[]" (PyList []) eq_refl eq_refl)
    as [Hrun _]; [discriminate|].
  exact Hrun.
Defined.

(** ** The fields of the record the scorer writes *)

Lemma dict_keys_set (k : string) (v : pyval) (d : dict) :
  dict_keys (dict_set k v d) =
    match dict_get k d with
    | Some _ => dict_keys d
    | None => dict_keys d ++ [k]
    end.
Proof.
  unfold dict_keys. induction d as [|[k' v'] d IH]; simpl; [reflexivity|].
  destruct (String.eqb k k'); simpl; [reflexivity|].
  rewrite IH. now destruct (dict_get k d).
Qed.

Lemma dict_keys_update (d other : dict) :
  dict_keys (dict_update d other) = dict_keys d ++ new_keys d other.
Proof.
  revert d. induction other as [|[k v] other IH]; intros d.
  - simpl. now rewrite app_nil_r.
  - rewrite dict_update_cons, IH, dict_keys_set. simpl.
    destruct (dict_get k d); [reflexivity | now rewrite <- app_assoc].
Qed.

Lemma new_keys_spec (d other : dict) (k : string) :
  In k (new_keys d other) -> dict_get k d = None /\ In k (dict_keys other).
Proof.
  revert d. induction other as [|[k' v'] other IH]; intros d; simpl;
    [intros []|].
  assert (Hrec : In k (new_keys (dict_set k' v' d) other) ->
                 dict_get k d = None /\ (k' = k \/ In k (dict_keys other))).
  { intros H. destruct (IH _ H) as [Hget Hin]. split; [|now right].
    destruct (String.eqb_spec k' k) as [->|Hne].
    - now rewrite dict_get_set_same in Hget.
    - now rewrite dict_get_set_other in Hget. }
  destruct (dict_get k' d) eqn:E; [exact Hrec|].
  intros [<-|H]; [split; [assumption | now left] | now apply Hrec].
Qed.

Lemma score_path_keys {L : Libs} (w : world) (p g o : string)
    (d overlay : dict) (status : string) :
  score_path w p g o d overlay status ->
  incl (dict_keys overlay)
       ["score_status"; "score_errors"; "auc_roc"; "auprc"].
Proof.
  intros H; inversion H; subst; intros k Hk; simpl in *; tauto.
Qed.

(** X13: the record the scorer writes lists the fields of the record it
    loaded first, in their order, none removed, and after them the fields
    it adds, which are among score_status, score_errors, auc_roc and
    auprc and were absent before; so metrics left by an earlier run stay
    in the record when a later run does not score. *)
Theorem score_record_keeps_fields_in_order {L : Libs}
    (w : world) (p g o : string) (v : pyval) :
  records (score.main w p g o) v ->
  exists (d res : dict) (added : list string),
    result (score.load_results w o) = Ok (PyDict d)
    /\ v = PyDict res
    /\ dict_keys res = dict_keys d ++ added
    /\ (forall k, In k added ->
          dict_get k d = None
          /\ In k ["score_status"; "score_errors"; "auc_roc"; "auprc"])
    /\ (forall k, dict_get k d <> None -> dict_get k res <> None).
Proof.
  intros Hrec.
  destruct (records_main_inv w p g o v Hrec)
    as (d & overlay & status & Hpath & -> & _).
  exists d, (dict_update d overlay), (new_keys d overlay).
  split; [inversion Hpath; assumption|].
  split; [reflexivity|].
  split; [apply dict_keys_update|].
  split.
  - intros k Hk. destruct (new_keys_spec d overlay k Hk) as [Hget Hin].
    split; [assumption|]. now apply (score_path_keys w p g o d overlay status).
  - intros k Hk.
    rewrite dict_get_none_keys, dict_keys_update, in_app_iff.
    intros Hnot. apply Hk, dict_get_none_keys. tauto.
Qed.

Lemma score_record_keeps_fields_in_order_witness :
  exists (d res : dict) (added : list string),
    dict_keys res = dict_keys d ++ added
    /\ forall k, dict_get k d <> None -> dict_get k res <> None.
Proof.
  destruct (@score_record_keeps_fields_in_order Sample.libs
              Sample.invalid_world "pred.csv" "gs" "results.json"
              (PyDict Cases.invalid_scored_record))
    as (d & res & added & _ & _ & Hkeys & _ & Hkeep).
  - unfold records. vm_compute. do 2 right. left. reflexivity.
  - exists d, res, added. split; [exact Hkeys | exact Hkeep].
Defined.

(** ** Running the scorer again *)

Lemma dict_set_same_value (k : string) (v : pyval) (d : dict) :
  dict_get k d = Some v -> dict_set k v d = d.
Proof.
  induction d as [|[k' v'] d IH]; simpl; [discriminate|].
  destruct (String.eqb k k') eqn:E.
  - intros H. inversion H. reflexivity.
  - intros H. now rewrite IH.
Qed.

Lemma dict_update_absorbed (d other : dict) :
  (forall k v, In (k, v) other -> dict_get k d = Some v) ->
  dict_update d other = d.
Proof.
  induction other as [|[k v] other IH]; intros H; [reflexivity|].
  rewrite dict_update_cons, dict_set_same_value by (apply H; now left).
  apply IH. intros k' v' Hin. apply H. now right.
Qed.

Lemma dict_get_in (k : string) (v : pyval) (d : dict) :
  NoDup (dict_keys d) -> In (k, v) d -> dict_get k d = Some v.
Proof.
  induction d as [|[k' v'] d IH]; simpl; [intros _ []|].
  intros Hnd [H|H].
  - inversion H; subst. now rewrite String.eqb_refl.
  - inversion Hnd as [|? ? Hnotin Hnd']; subst.
    destruct (String.eqb_spec k k') as [->|Hne]; [|now apply IH].
    exfalso. apply Hnotin. change (In (fst (k', v)) (map fst d)).
    now apply in_map.
Qed.

Lemma dict_update_idempotent (d other : dict) :
  NoDup (dict_keys other) ->
  dict_update (dict_update d other) other = dict_update d other.
Proof.
  intros Hnd. apply dict_update_absorbed. intros k v Hin.
  apply dict_update_overwrites; [assumption | now apply dict_get_in].
Qed.

(** X14: the scorer can be run again on its own output.  On a record
    that a first run marked after a failed validation, a second run
    changes nothing: it does not score, and the record it writes is the
    record it loaded. *)
Theorem score_rerun_on_invalid_changes_nothing {L : Libs}
    (w : world) (p g o text : string) (d : dict) :
  dict_get "validation_status" d = Some (PyStr "INVALID") ->
  let first :=
    dict_update d
      [("score_status", PyStr "INVALID");
       ("score_errors",
        PyStr "Submission could not be evaluated due to validation errors.")] in
  open_r w o = Ok text ->
  json_loads text = Ok (PyDict first) ->
  open_w w o = Ok tt ->
  score.main w p g o =
    ([EvOpen o ModeR; EvOpen o ModeW; EvJsonDumps (PyDict first);
      EvWrite o (json_dumps (PyDict first)); EvPrint "INVALID"], Ok tt).
Proof.
  intros Hs first Hr Hj Hw.
  assert (Hs' : py_eq_str (get_or_none "validation_status" first) "INVALID"
                = true).
  { unfold get_or_none, first. rewrite dict_update_retains by reflexivity.
    now rewrite Hs. }
  pose proof (main_invalid_run w p g o first
                (load_results_parsed w o text _ Hr Hj) Hs') as Hrun.
  cbv zeta in Hrun. rewrite Hw in Hrun. rewrite Hrun.
  assert (Hsame : dict_update first
                    [("score_status", PyStr "INVALID");
                     ("score_errors",
                      PyStr "Submission could not be evaluated due to validation errors.")]
                  = first).
  { unfold first. apply dict_update_idempotent.
    repeat constructor; simpl; intuition discriminate. }
  now rewrite Hsame.
Qed.

Lemma score_rerun_on_invalid_changes_nothing_witness :
  records (score.main (L := Cases.libs) Cases.rerun_world
             "pred.csv" "gs" "results.json")
          (PyDict Cases.invalid_scored_record).
Proof.
  pose proof (@score_rerun_on_invalid_changes_nothing Cases.libs
                Cases.rerun_world "pred.csv" "gs" "results.json"
                (Sample.json_dumps (PyDict Cases.invalid_scored_record))
                Sample.invalid_record
                eq_refl eq_refl eq_refl eq_refl) as Hrun.
  cbv zeta in Hrun. unfold records. rewrite Hrun, trace_pair.
  right. right. left. reflexivity.
Defined.

(** ** The two stages in sequence *)

(** X15: the scorer after the validator.  When the scorer loads the
    record that a run of the validator wrote, it prints no warning and
    every record it writes carries the validation_status and
    validation_errors of the validator unchanged; after "INVALID" it
    looks up no folder, scores nothing and records score_status
    "INVALID"; after "VALIDATED" its next call is the lookup of the
    goldstandard folder. *)
Theorem validate_then_score {L : Libs}
    (w w' : world) (p g o p' g' : string) (v : pyval) :
  records (validate.main w p g o) v ->
  open_r w' o = Ok (json_dumps v) ->
  json_loads (json_dumps v) = Ok v ->
  exists status errors : string,
    v = PyDict [("validation_status", PyStr status);
                ("validation_errors", PyStr errors)]
    /\ ~ In (EvPrint warning) (trace (score.main w' p' g' o))
    /\ (forall v',
          records (score.main w' p' g' o) v' ->
          exists res' : dict,
            v' = PyDict res'
            /\ dict_get "validation_status" res' = Some (PyStr status)
            /\ dict_get "validation_errors" res' = Some (PyStr errors)
            /\ (status = "INVALID" ->
                dict_get "score_status" res' = Some (PyStr "INVALID")))
    /\ (status = "INVALID" ->
        existsb is_glob_call (trace (score.main w' p' g' o)) = false
        /\ existsb is_score_call (trace (score.main w' p' g' o)) = false)
    /\ (status = "VALIDATED" ->
        exists rest,
          trace (score.main w' p' g' o)
            = [EvOpen o ModeR; EvGlob g'] ++ rest).
Proof.
  intros Hrec Hr Hj.
  destruct (records_validate_main_inv w p g o v Hrec)
    as (errs & _ & -> & _).
  set (status := validate.status_of (join newline errs)).
  set (errors := validate.truncate (join newline errs)).
  set (d := [("validation_status", PyStr status);
             ("validation_errors", PyStr errors)]).
  assert (Hl : result (score.load_results w' o) = Ok (PyDict d))
    by exact (load_results_parsed w' o _ _ Hr Hj).
  assert (Hcases : status = "INVALID" \/ status = "VALIDATED").
  { unfold status, validate.status_of. destruct (truthy _); auto. }
  assert (Hwarn : warning_events d = []).
  { unfold warning_events, d, get_or_none. simpl.
    destruct Hcases as [-> | ->]; reflexivity. }
  exists status, errors. split; [reflexivity|].
  split.
  { destruct (main_trace_after_load w' p' g' o d Hl) as (rest & -> & Hrest).
    rewrite Hwarn, !in_app_iff. intros [H|[[]|H]]; [|contradiction].
    destruct H as [H|[]]. discriminate. }
  split.
  { intros v' Hrec'.
    destruct (records_main_inv w' p' g' o v' Hrec')
      as (d' & overlay & status' & Hpath & -> & _).
    assert (d' = d) by (inversion Hpath; congruence). subst d'.
    destruct (score_path_overlay _ _ _ _ _ _ _ Hpath)
      as (Hnd & Hst & _ & Hvs & Hve & _).
    eexists. split; [reflexivity|].
    split; [now rewrite dict_update_retains|].
    split; [now rewrite dict_update_retains|].
    intros Hinv. rewrite (dict_update_overwrites _ _ d _ Hnd Hst).
    inversion Hpath; subst; try reflexivity;
      match goal with
      | H : py_eq_str _ _ = false |- _ =>
          unfold d, get_or_none in H; simpl in H; rewrite Hinv in H;
          discriminate
      end. }
  split.
  { intros Hinv.
    assert (Hs : py_eq_str (get_or_none "validation_status" d) "INVALID"
                 = true)
      by (unfold d, get_or_none; simpl; now rewrite Hinv).
    pose proof (main_invalid_run w' p' g' o d Hl Hs) as Hrun.
    cbv zeta in Hrun. rewrite Hrun.
    destruct (open_w w' o); split; reflexivity. }
  intros Hval.
  assert (Hs : py_eq_str (get_or_none "validation_status" d) "INVALID"
               = false)
    by (unfold d, get_or_none; simpl; now rewrite Hval).
  destruct (glob w' g') as [|gold_file [|f' fs]] eqn:Hg.
  1,3: destruct (main_bad_folder w' p' g' o d Hl Hs) as (e & _ & ->);
       [rewrite Hg; simpl; lia|];
       rewrite trace_pair, Hwarn; now exists [].
  pose proof (main_scoring_run w' p' g' o gold_file d Hl Hs Hg) as Hrun.
  cbv zeta in Hrun. rewrite Hrun, Hwarn.
  destruct (result (score.score w' gold_file p')) as [scores|e];
    [|destruct (isinstance e [ValueError])];
    eexists; rewrite trace_pair; simpl; reflexivity.
Qed.

Lemma validate_then_score_witness :
  ~ In (EvPrint warning)
       (trace (score.main (L := Sample.libs) Sample.validated_world
                 "pred.csv" "gs" "results.json")).
Proof.
  destruct (@validate_then_score Sample.libs
              Sample.fresh_world Sample.validated_world
              "pred.csv" "gs" "results.json" "pred.csv" "gs"
              (PyDict Sample.validated_record))
    as (status & errors & _ & Hwarn & _).
  - unfold records. vm_compute. do 9 right. left. reflexivity.
  - reflexivity.
  - reflexivity.
  - exact Hwarn.
Defined.

(** ** The calls of [score] *)

(** X16: [score] loads the predictions before the goldstandard table
    and then computes the three metric values, stopping at the first call
    that raises; it makes no other call.  When it returns it has made the
    five calls and returns the two metrics; when the predictions do not
    load, the goldstandard file is not read. *)
Theorem score_calls_in_order {L : Libs} (w : world) (gold_file p : string) :
  let calls :=
    [EvReadCsv p PredictionTable; EvReadCsv gold_file GoldstandardTable;
     EvSklearn RocAucScore; EvSklearn PrecisionRecallCurve; EvSklearn Auc] in
  (exists n, 1 <= n <= 5
             /\ trace (score.score w gold_file p) = firstn n calls)
  /\ (forall scores,
        result (score.score w gold_file p) = Ok scores ->
        trace (score.score w gold_file p) = calls
        /\ exists roc area,
             scores = [("auc_roc", PyFloat roc); ("auprc", PyFloat area)])
  /\ (forall e,
        read_csv_pred w p = Raise e ->
        score.score w gold_file p = ([EvReadCsv p PredictionTable], Raise e)).
Proof.
  intros calls. unfold calls, score.score, score.sklearn, call, bind.
  destruct (read_csv_pred w p) as [pred|e].
  2:{ split; [exists 1; split; [lia | reflexivity]|].
      split; [discriminate|]. intros e' H. inversion H. reflexivity. }
  destruct (read_csv_gold w gold_file) as [gold|e].
  2:{ split; [exists 2; split; [lia | reflexivity]|].
      split; discriminate. }
  destruct (roc_auc_score _ _) as [roc|e].
  2:{ split; [exists 3; split; [lia | reflexivity]|].
      split; discriminate. }
  destruct (precision_recall_curve _ _) as [[[precision recall] t]|e].
  2:{ split; [exists 4; split; [lia | reflexivity]|].
      split; discriminate. }
  destruct (auc _ _) as [area|e].
  2:{ split; [exists 5; split; [lia | reflexivity]|].
      split; discriminate. }
  split; [exists 5; split; [lia | reflexivity]|].
  split; [|discriminate].
  intros scores H. simpl in H. inversion H. split; [reflexivity | eauto].
Qed.
